(** * Vanilla VAE training script: model and properties

    A shallow embedding of [src/train_VAE_Vanilla.py].

    Tensors of floating-point numbers are modelled over the real numbers
    [R]: every statement below is about the exact arithmetic the script
    asks for, not about rounding, overflow or NaN.  Two places where the
    real model and torch part ways are kept out of the statements by an
    explicit hypothesis: the mean of an empty tensor (NaN in torch) and
    the logarithm of a non-positive number (NaN or -inf in torch, [0] for
    [ln]).  One bound does not survive rounding, that of the encoder's
    standard deviation: the module [float32] reads that part of the
    encoder on float32 values.

    A rank-2 tensor (batch x features) is a list of rows.  Element-wise
    binary operations and the products of a linear layer pair the
    elements of their operands position by position; torch raises on
    operands whose shapes do not agree, and the statements that depend on
    it assume equal shapes. *)

From Stdlib Require Import String DecimalString.
From Stdlib Require Import Reals Zfloor Lra Lia ZArith Bool List.
Import ListNotations.

Open Scope R_scope.

(** ** Tensors *)

Definition vec := list R.
Definition mat := list vec.

(** A tensor of any rank, and a batch of examples as a data loader
    yields it: a tensor of rank 2 or more, one example per entry, every
    example a list of features that may be tensors themselves. *)
#[warnings="-register-all"]
Inductive nd : Type :=
| Leaf (v : R)
| Node (l : list nd).

Definition example := list nd.
Definition batch := list example.

Fixpoint zip_with {A B C : Type} (f : A -> B -> C)
  (a : list A) (b : list B) : list C :=
  match a, b with
  | x :: a', y :: b' => f x y :: zip_with f a' b'
  | _, _ => []
  end.

Fixpoint zip_with3 {A B C D : Type} (f : A -> B -> C -> D)
  (a : list A) (b : list B) (c : list C) : list D :=
  match a, b, c with
  | x :: a', y :: b', z :: c' => f x y z :: zip_with3 f a' b' c'
  | _, _, _ => []
  end.

Definition map_m (f : R -> R) (t : mat) : mat := map (map f) t.
Definition zip_m (f : R -> R -> R) (a b : mat) : mat :=
  zip_with (zip_with f) a b.
Definition zip_m3 (f : R -> R -> R -> R) (a b c : mat) : mat :=
  zip_with3 (zip_with3 f) a b c.

(** [same_shape a b]: the two tensors have as many rows, and row by row
    as many columns. *)
Definition same_shape (a b : mat) : Prop :=
  Forall2 (fun r s : vec => length r = length s) a b.

Module torch.

Fixpoint flat (t : nd) : vec :=
  match t with
  | Leaf v => [v]
  | Node l =>
      (fix go (l : list nd) : vec :=
         match l with
         | [] => []
         | t' :: l' => flat t' ++ go l'
         end) l
  end.

(** [torch.flatten(x, start_dim=1)]: the batch dimension stays, every
    example is laid out as one row. *)
Definition flatten (x : batch) : mat := map (fun e => concat (map flat e)) x.

(** [x.shape[1]]: the size of the second dimension, read from the first
    example.  A list of rows does not record the width of a tensor
    without rows, read as 0 here; a data loader yields no such batch. *)
Definition shape1 (x : batch) : nat :=
  match x with
  | e :: _ => length e
  | [] => 0%nat
  end.

Definition vsum (v : vec) : R := fold_right Rplus 0 v.

(** [t.sum()] over every element; [t.sum(dim=1)] per row. *)
Definition sum (t : mat) : R := vsum (map vsum t).
Definition sum_dim1 (t : mat) : vec := map vsum t.

(** [t.mean()] of a rank-1 tensor. *)
Definition mean (v : vec) : R := vsum v / INR (length v).

Definition exp (t : mat) : mat := map_m Rtrigo_def.exp t.
Definition log (t : mat) : mat := map_m ln t.
Definition pow (t : mat) (n : nat) : mat := map_m (fun v => v ^ n) t.
Definition neg (t : mat) : mat := map_m Ropp t.
Definition add (a b : mat) : mat := zip_m Rplus a b.
Definition sub (a b : mat) : mat := zip_m Rminus a b.
Definition mul (a b : mat) : mat := zip_m Rmult a b.
Definition div (a b : mat) : mat := zip_m Rdiv a b.
Definition sub_scalar (t : mat) (c : R) : mat := map_m (fun v => v - c) t.
Definition div_scalar (t : mat) (c : R) : mat := map_m (fun v => v / c) t.
Definition scalar_mul (c : R) (t : mat) : mat := map_m (fun v => c * v) t.

(** A one-element tensor broadcast against [t]. *)
Definition expand_as (c : R) (t : mat) : mat := map_m (fun _ => c) t.

Definition relu (t : mat) : mat := map_m (Rmax 0) t.
Definition sigmoid (t : mat) : mat :=
  map_m (fun v => 1 / (1 + Rtrigo_def.exp (- v))) t.

(** [nn.Linear]: [y = x W^T + b], one output per row of [weight]. *)
Record Linear : Type := mkLinear { weight : mat; bias : vec }.

Definition dot (a b : vec) : R := vsum (zip_with Rmult a b).

Definition linear (L : Linear) (x : mat) : mat :=
  map (fun row => zip_with Rplus (map (fun w => dot w row) (weight L)) (bias L)) x.

(** *** The global random generator

    A generator is its algorithm, [draws s k] being the [k]-th standard
    normal variate of the stream started by seed [s], together with its
    state: the seed in use and how many variates were consumed. *)
Record generator : Type := mkGenerator {
  draws : Z -> nat -> R;
  seed : Z;
  offset : nat
}.

(** Computations that consume random numbers. *)
Definition M (A : Type) : Type := generator -> A * generator.

Definition ret {A : Type} (a : A) : M A := fun g => (a, g).

Definition bind {A B : Type} (m : M A) (k : A -> M B) : M B :=
  fun g => let (a, g') := m g in k a g'.

Definition randn (n : nat) : M vec :=
  fun g =>
    (map (fun k => draws g (seed g) (offset g + k)%nat) (seq 0 n),
     {| draws := draws g; seed := seed g; offset := (offset g + n)%nat |}).

Fixpoint standard_normal_like (t : mat) : M mat :=
  match t with
  | [] => ret []
  | row :: t' =>
      bind (randn (length row)) (fun e =>
      bind (standard_normal_like t') (fun es =>
      ret (e :: es)))
  end.

(** *** [torch.distributions.Normal(loc, scale)]

    The second argument is the standard deviation.  The constructor
    rejects a scale that is not positive; every scale built in this
    script is an exponential, positive over the reals. *)
Module Normal.

Record t : Type := mk { loc : mat; scale : mat }.

(** [var = scale ** 2; log_scale = scale.log();
     -((value - loc) ** 2) / (2 * var) - log_scale
     - math.log(math.sqrt(2 * math.pi))] *)
Definition log_prob (d : t) (value : mat) : mat :=
  let var := pow (scale d) 2 in
  let log_scale := log (scale d) in
  sub_scalar
    (sub (div (neg (pow (sub value (loc d)) 2)) (scalar_mul 2 var))
         log_scale)
    (ln (sqrt (2 * PI))).

(** [eps = _standard_normal(shape); loc + eps * scale] *)
Definition rsample (d : t) : M mat :=
  bind (standard_normal_like (loc d)) (fun eps =>
  ret (add (loc d) (mul eps (scale d)))).

(** [torch.normal(loc, scale)]: the same variate, without a
    gradient path. *)
Definition sample (d : t) : M mat := rsample d.

End Normal.

End torch.

Declare Scope rand_scope.
Delimit Scope rand_scope with rand.
Notation "x <- c1 ;; c2" := (torch.bind c1 (fun x => c2))
  (at level 100, c1 at next level, right associativity) : rand_scope.
Notation "' pat <- c1 ;; c2" := (torch.bind c1 (fun x => match x with pat => c2 end))
  (at level 100, pat pattern, c1 at next level, right associativity) : rand_scope.

(** ** The networks *)

Module EncoderNN.

Record t : Type := mk {
  linear1 : torch.Linear;
  linear2 : torch.Linear;
  linear3 : torch.Linear
}.

Definition forward (self : t) (x : batch) : mat * mat :=
  let x := torch.flatten x in
  let x := torch.relu (torch.linear (linear1 self) x) in
  let mu := torch.linear (linear2 self) x in
  let sigma := torch.exp (torch.linear (linear3 self) x) in
  (mu, sigma).

End EncoderNN.

Module EncoderGaussian.

Record t : Type := mk { encoder : EncoderNN.t }.

Definition sample (mu std : mat) : torch.M mat :=
  let q := torch.Normal.mk mu std in
  torch.Normal.rsample q.

Definition log_prob (mu std z : mat) : vec :=
  torch.sum_dim1 (torch.Normal.log_prob (torch.Normal.mk mu std) z).

Definition forward (self : t) (x : batch) : torch.M (mat * mat * mat) :=
  let '(mu, log_var) := EncoderNN.forward (encoder self) x in
  let std := torch.exp (torch.div_scalar log_var 2) in
  (z <- sample mu std ;;
   torch.ret (z, mu, std))%rand.

End EncoderGaussian.

Module DecoderNN.

Record t : Type := mk {
  linear1 : torch.Linear;
  linear2 : torch.Linear
}.

Definition forward (self : t) (z : mat) : mat :=
  let out := torch.relu (torch.linear (linear1 self) z) in
  let out := torch.sigmoid (torch.linear (linear2 self) out) in
  out.

End DecoderNN.

Module DecoderGaussian.

Record t : Type := mk {
  decoder : DecoderNN.t;
  log_variance : R
}.

(** [__init__]: [log_variance = nn.Parameter(torch.Tensor([0.0]))] *)
Definition init (decoder : DecoderNN.t) : t :=
  {| decoder := decoder; log_variance := 0 |}.

Definition log_prob_xz (mean : mat) (log_variance : R) (x : batch) : vec :=
  let x := torch.flatten x in
  let variance := Rtrigo_def.exp log_variance in
  let dist := torch.Normal.mk mean (torch.expand_as variance mean) in
  let log_pxz := torch.Normal.log_prob dist x in
  torch.sum_dim1 log_pxz.

Definition forward (self : t) (z : mat) (x : batch) : mat * vec :=
  let out := DecoderNN.forward (decoder self) z in
  let recon_loss := log_prob_xz out (log_variance self) x in
  (out, recon_loss).

End DecoderGaussian.

Module VariationalAutoencoder.

Record t : Type := mk {
  encoder : EncoderGaussian.t;
  decoder : DecoderGaussian.t;
  beta : R
}.

Definition init (enc : EncoderNN.t) (dec : DecoderNN.t) (beta : R) : t :=
  {| encoder := EncoderGaussian.mk enc;
     decoder := DecoderGaussian.init dec;
     beta := beta |}.

(** [(sigma**2 + mu**2 - torch.log(sigma) - 1/2).sum()] *)
Definition kl_divergence (mu sigma : mat) : R :=
  torch.sum
    (torch.sub_scalar
       (torch.sub (torch.add (torch.pow sigma 2) (torch.pow mu 2))
                  (torch.log sigma))
       (1 / 2)).

Definition sample (mean : mat) (log_variance : R) : torch.M mat :=
  let variance := Rtrigo_def.exp log_variance in
  let dist := torch.Normal.mk mean (torch.expand_as variance mean) in
  torch.Normal.sample dist.

(** [Dkl] is a tensor of rank 0: against the vector [recon_loss] it is
    broadcast to every example, and its own [mean()] runs over its
    single element. *)
Definition forward (self : t) (x : batch) : torch.M (R * R * R * mat) :=
  ('(z, mu, sigma) <- EncoderGaussian.forward (encoder self) x ;;
   let '(decoder_out, recon_loss) :=
     DecoderGaussian.forward (decoder self) z x in
   let Dkl := kl_divergence mu sigma in
   let elbo := torch.mean (map (fun r => Dkl * beta self - r) recon_loss) in
   torch.ret (elbo, torch.mean [Dkl], torch.mean recon_loss, z))%rand.

End VariationalAutoencoder.


(** ** The Python process around the model

    What [run_VAE_training] does besides arithmetic: it writes to the
    standard streams, rebinds [sys.stderr], calls its collaborators from
    [utils] and can leave through an exception.  A computation takes the
    state of the process and gives back a value or a raised exception,
    with the state it leaves behind. *)

Module py.

Inductive stream : Type := fd_stdout | fd_stderr.

(** The objects [sys.stdout] and [sys.stderr] are bound to. *)
Inductive object : Type :=
| None_
| TextIO (fd : stream).

Inductive exn : Type :=
| SystemExit (code : Z)
| UnboundLocalError (name : string).

(** Calls that reach a collaborator or build the model. *)
Inductive event : Type :=
| create_dataloader_call (path : string) (batch_size : nat) (sample : R)
| construct_model (n_cols ldim hdim : nat)
| train_call (epoch : nat)
| test_call (epoch : nat) (keep_z : bool)
| save_call (path : string)
| plot_losses_call (epochs : nat) (path : string).

Record world : Type := mkWorld {
  sys_stdout : object;
  sys_stderr : object;
  out : list string;
  err : list string;
  calls : list event;
  rng : torch.generator
}.

Inductive result (A : Type) : Type :=
| Ok (a : A)
| Raise (e : exn).
Arguments Ok {A} a.
Arguments Raise {A} e.

Definition Py (A : Type) : Type := world -> result A * world.

Definition ret {A : Type} (a : A) : Py A := fun w => (Ok a, w).

Definition bind {A B : Type} (m : Py A) (k : A -> Py B) : Py B :=
  fun w =>
    match m w with
    | (Ok a, w') => k a w'
    | (Raise e, w') => (Raise e, w')
    end.

Definition raise {A : Type} (e : exn) : Py A := fun w => (Raise e, w).

Definition write (fd : stream) (s : string) (w : world) : world :=
  match fd with
  | fd_stdout =>
      {| sys_stdout := sys_stdout w; sys_stderr := sys_stderr w;
         out := out w ++ [s]; err := err w;
         calls := calls w; rng := rng w |}
  | fd_stderr =>
      {| sys_stdout := sys_stdout w; sys_stderr := sys_stderr w;
         out := out w; err := err w ++ [s];
         calls := calls w; rng := rng w |}
  end.

Definition newline : string := String (Ascii.ascii_of_nat 10) EmptyString.

(** [print(s)]: the text and a newline go to whatever [sys.stdout] is
    bound to, nothing is written when that is [None]; the call returns
    [None]. *)
Definition print (s : string) : Py object :=
  fun w =>
    match sys_stdout w with
    | TextIO fd => (Ok None_, write fd (s ++ newline)%string w)
    | None_ => (Ok None_, w)
    end.

(** [sys.stderr = v] *)
Definition set_sys_stderr (v : object) : Py unit :=
  fun w =>
    (Ok tt,
     {| sys_stdout := sys_stdout w; sys_stderr := v;
        out := out w; err := err w;
        calls := calls w; rng := rng w |}).

(** [sys.exit(code)] *)
Definition sys_exit {A : Type} (code : Z) : Py A := raise (SystemExit code).

Definition log_call (e : event) : Py unit :=
  fun w =>
    (Ok tt,
     {| sys_stdout := sys_stdout w; sys_stderr := sys_stderr w;
        out := out w; err := err w;
        calls := calls w ++ [e]; rng := rng w |}).

(** A computation that only consumes random numbers. *)
Definition lift {A : Type} (m : torch.M A) : Py A :=
  fun w =>
    let (a, g) := m (rng w) in
    (Ok a,
     {| sys_stdout := sys_stdout w; sys_stderr := sys_stderr w;
        out := out w; err := err w;
        calls := calls w; rng := g |}).

(** Reading a local name that no statement has bound yet. *)
Definition read_local {A : Type} (name : string) (v : option A) : Py A :=
  match v with
  | Some a => ret a
  | None => raise (UnboundLocalError name)
  end.

(** The status the interpreter exits with when the main module ends
    with [r]: [SystemExit] carries its own, any other exception that
    nobody caught gives 1. *)
Definition exit_status {A : Type} (r : result A) : Z :=
  match r with
  | Ok _ => 0%Z
  | Raise (SystemExit code) => code
  | Raise _ => 1%Z
  end.

(** The process as the interpreter starts it. *)
Definition fresh (g : torch.generator) : world :=
  {| sys_stdout := TextIO fd_stdout; sys_stderr := TextIO fd_stderr;
     out := []; err := []; calls := []; rng := g |}.

Definition str (n : nat) : string := NilEmpty.string_of_uint (Nat.to_uint n).

End py.

Declare Scope py_scope.
Delimit Scope py_scope with py.
Notation "x <- c1 ;; c2" := (py.bind c1 (fun x => c2))
  (at level 100, c1 at next level, right associativity) : py_scope.
Notation "' pat <- c1 ;; c2" := (py.bind c1 (fun x => match x with pat => c2 end))
  (at level 100, pat pattern, c1 at next level, right associativity) : py_scope.
Notation "c1 ;;; c2" := (py.bind c1 (fun _ => c2))
  (at level 100, right associativity) : py_scope.

(** ** The training run *)

(** What [parse_model_arguments] returns. *)
Record arguments : Type := mkArguments {
  arg_train_data : string;
  arg_test_data : string;
  arg_output : string;
  arg_epochs : nat;
  arg_batch_size : nat;
  arg_sample : R;
  arg_latent_dim : nat;
  arg_hidden_dim : nat;
  arg_learning_rate : R;
  arg_beta : R
}.

(** The collaborators of the script: the functions imported from
    [utils], and the parts of torch and Python it leaves to the library
    (initial weights, the optimizer, the text of a float).  A data loader
    is the batches it yields; of the five fields of a batch only the
    features are read here. *)
Record collaborators : Type := mkCollaborators {
  optim : Type;
  parse_model_arguments : arguments;
  create_dataloader : string -> nat -> R -> list batch;
  cuda_is_available : bool;
  new_EncoderNN : nat -> nat -> nat -> torch.M EncoderNN.t;
  new_DecoderNN : nat -> nat -> nat -> torch.M DecoderNN.t;
  Adam : VariationalAutoencoder.t -> R -> optim;
  train :
    VariationalAutoencoder.t -> list batch -> optim -> string ->
    torch.M (VariationalAutoencoder.t * optim * (R * R * R));
  test :
    VariationalAutoencoder.t -> list batch -> bool -> string ->
    torch.M (R * R * R * mat);
  float_text : R -> string
}.

Record history : Type := mkHistory {
  train_elbo_list : list R;
  train_Dkl_list : list R;
  train_recon_loss_list : list R;
  test_elbo_list : list R;
  test_Dkl_list : list R;
  test_recon_loss_list : list R
}.

Definition no_history : history :=
  {| train_elbo_list := []; train_Dkl_list := []; train_recon_loss_list := [];
     test_elbo_list := []; test_Dkl_list := []; test_recon_loss_list := [] |}.

Definition config_error_message : string :=
  "ERROR: Latent dimension cannot be greater                            than the number of columns in the dataset.".

Definition epoch_rule : string := "-------------------------------".

Section Run.

Variable C : collaborators.

(** [for i,_,_,_,_ in train_dataloader: n_cols = i.shape[1]; break]:
    the name stays unbound when the loader yields nothing. *)
Definition first_n_cols (train_dataloader : list batch) : py.Py (option nat) :=
  match train_dataloader with
  | [] => py.ret None
  | i :: _ => py.ret (Some (torch.shape1 i))
  end.

(** The body of [for t in range(epochs)], over the epochs still to run. *)
Fixpoint epoch_loop (ts : list nat) (epochs : nat)
  (train_dataloader test_dataloader : list batch) (device : string)
  (vae : VariationalAutoencoder.t) (optimizer : optim C)
  (h : history) (z : option mat) {struct ts} : py.Py (history * option mat) :=
  match ts with
  | [] => py.ret (h, z)
  | t :: ts' =>
      (py.print ("Epoch " ++ py.str (t + 1) ++ py.newline ++ epoch_rule)%string ;;;
       py.log_call (py.train_call t) ;;;
       ' (vae, optimizer, (elbo_train, Dkl_train, recon_loss_train)) <-
         py.lift (train C vae train_dataloader optimizer device) ;;
       let keep := Nat.eqb t (epochs - 1) in
       py.log_call (py.test_call t keep) ;;;
       ' (elbo_test, Dkl_test, recon_loss_test, z_test) <-
         py.lift (test C vae test_dataloader keep device) ;;
       let z := if keep then Some z_test else z in
       let h :=
         {| train_elbo_list := train_elbo_list h ++ [elbo_train];
            train_Dkl_list := train_Dkl_list h ++ [Dkl_train];
            train_recon_loss_list := train_recon_loss_list h ++ [recon_loss_train];
            test_elbo_list := test_elbo_list h ++ [elbo_test];
            test_Dkl_list := test_Dkl_list h ++ [Dkl_test];
            test_recon_loss_list := test_recon_loss_list h ++ [recon_loss_test] |} in
       epoch_loop ts' epochs train_dataloader test_dataloader device
         vae optimizer h z)%py
  end.

Definition run_VAE_training (train_data test_data : string)
  (beta learning_rate : R) (ldim hdim epochs batch_size : nat)
  (sample : R) (output : string) : py.Py (history * mat) :=
  (py.log_call (py.create_dataloader_call train_data batch_size sample) ;;;
   let train_dataloader := create_dataloader C train_data batch_size sample in
   py.log_call (py.create_dataloader_call test_data batch_size sample) ;;;
   let test_dataloader := create_dataloader C test_data batch_size sample in
   let device := if cuda_is_available C then "cuda"%string else "cpu"%string in
   py.print ("Using " ++ device ++ " device")%string ;;;
   n_cols <- first_n_cols train_dataloader ;;
   n_cols <- py.read_local "n_cols" n_cols ;;
   (if Nat.ltb n_cols ldim
    then
      (v <- py.print config_error_message ;;
       py.set_sys_stderr v ;;;
       py.sys_exit 0)
    else py.ret tt) ;;;
   py.log_call (py.construct_model n_cols ldim hdim) ;;;
   encoder_nn <- py.lift (new_EncoderNN C n_cols ldim hdim) ;;
   decoder_nn <- py.lift (new_DecoderNN C n_cols ldim hdim) ;;
   let vae := VariationalAutoencoder.init encoder_nn decoder_nn beta in
   let optimizer := Adam C vae learning_rate in
   ' (h, z) <- epoch_loop (seq 0 epochs) epochs train_dataloader test_dataloader
                device vae optimizer no_history None ;;
   py.print "Done!" ;;;
   py.log_call (py.save_call (output ++ ".pt")%string) ;;;
   z <- py.read_local "z" z ;;
   py.ret (h, z))%py.

(** The [__main__] block. *)
Definition main : py.Py unit :=
  let a := parse_model_arguments C in
  let output :=
    (arg_output a
       ++ "_s" ++ float_text C (arg_sample a)
       ++ "_b" ++ float_text C (arg_beta a)
       ++ "_lr" ++ float_text C (arg_learning_rate a)
       ++ "_ld" ++ py.str (arg_latent_dim a)
       ++ "_hd" ++ py.str (arg_hidden_dim a)
       ++ "_bs" ++ py.str (arg_batch_size a)
       ++ "_epo" ++ py.str (arg_epochs a))%string in
  (' (h, z) <- run_VAE_training (arg_train_data a) (arg_test_data a)
                 (arg_beta a) (arg_learning_rate a)
                 (arg_latent_dim a) (arg_hidden_dim a)
                 (arg_epochs a) (arg_batch_size a)
                 (arg_sample a) output ;;
   py.log_call (py.plot_losses_call (arg_epochs a) output))%py.

End Run.

(** ** Reference formulas

    The formulas of the specification, written position by position;
    the tensor code above is compared with them. *)

(** One term of the sum [sum(std^2 + mu^2 - log(std) - 0.5)]. *)
Definition kl_term (mu sigma : R) : R := sigma ^ 2 + mu ^ 2 - ln sigma - 1 / 2.

(** The sum over the latent dimensions of one example, and over a batch. *)
Definition kl_example (mu sigma : vec) : R :=
  torch.vsum (zip_with kl_term mu sigma).

Definition kl_batch (mu sigma : mat) : R :=
  torch.vsum (zip_with kl_example mu sigma).

(** The closed form of the divergence of [Normal(mu, sigma^2)] from the
    standard normal prior, for one coordinate. *)
Definition kl_gauss (mu sigma : R) : R :=
  (sigma ^ 2 + mu ^ 2 - 1) / 2 - ln sigma.

(** [torch.cat] of [n] copies of a batch. *)
Definition replicate (n : nat) (t : mat) : mat := concat (repeat t n).

(** The density of the normal law with the given mean and variance, and
    its logarithm. *)
Definition normal_density (mean variance x : R) : R :=
  / sqrt (2 * PI * variance) * Rtrigo_def.exp (- (x - mean) ^ 2 / (2 * variance)).

Definition normal_log_density (mean variance x : R) : R :=
  - (x - mean) ^ 2 / (2 * variance) - ln (sqrt (2 * PI * variance)).

(** The log-likelihood of one example: the sum over its features. *)
Definition gaussian_ll (variance : R) (mean x : vec) : R :=
  torch.vsum (zip_with (fun m v => normal_log_density m variance v) mean x).

(** ** Small concrete inputs

    A network with one unit per layer and every weight zero, a generator
    whose stream counts upwards, a data loader that yields one batch of
    one example with five feature columns, and collaborators that do
    nothing: what the instances below are stated on. *)

Definition zero_linear : torch.Linear := {| torch.weight := [[0]]; torch.bias := [0] |}.

Definition zero_encoder : EncoderNN.t :=
  EncoderNN.mk zero_linear zero_linear zero_linear.

Definition zero_decoder : DecoderNN.t := DecoderNN.mk zero_linear zero_linear.

Definition zero_vae : VariationalAutoencoder.t :=
  VariationalAutoencoder.init zero_encoder zero_decoder 1.

Definition counting_generator : torch.generator :=
  {| torch.draws := fun s k => IZR s + INR k; torch.seed := 0; torch.offset := 0 |}.

Definition one_feature : batch := [[Leaf 0]].

Definition five_columns : batch :=
  [[Leaf 0; Leaf 0; Leaf 0; Leaf 0; Leaf 0]].

Definition idle_collaborators : collaborators :=
  {| optim := unit;
     parse_model_arguments :=
       {| arg_train_data := "train.h5ad"; arg_test_data := "test.h5ad";
          arg_output := "vae"; arg_epochs := 1; arg_batch_size := 4;
          arg_sample := 1; arg_latent_dim := 10; arg_hidden_dim := 8;
          arg_learning_rate := 1; arg_beta := 1 |};
     create_dataloader := fun _ _ _ => [five_columns];
     cuda_is_available := false;
     new_EncoderNN := fun _ _ _ => torch.ret zero_encoder;
     new_DecoderNN := fun _ _ _ => torch.ret zero_decoder;
     Adam := fun _ _ => tt;
     train := fun vae _ o _ => torch.ret (vae, o, (0, 0, 0));
     test := fun _ _ _ _ => torch.ret (0, 0, 0, []);
     float_text := fun _ => "1.0"%string |}.

(** ** Shapes and traces

    Vocabulary for the statements on shapes and on what a run leaves in
    the state of the process. *)

(** A layer with [n] outputs: [n] rows of weights and [n] biases. *)
Definition out_features (L : torch.Linear) (n : nat) : Prop :=
  length (torch.weight L) = n /\ length (torch.bias L) = n.

(** A layer all of whose weights and biases are zero. *)
Definition zero_layer (L : torch.Linear) : Prop :=
  Forall (Forall (fun w => w = 0)) (torch.weight L)
  /\ Forall (fun b => b = 0) (torch.bias L).

(** Every row has [n] entries. *)
Definition columns (n : nat) (t : mat) : Prop :=
  Forall (fun row : vec => length row = n) t.

(** [t.numel()] *)
Definition numel (t : mat) : nat := length (concat t).

(** What one epoch prints, and the calls the epochs [ts] of a run of
    [epochs] epochs make. *)
Definition epoch_banner (t : nat) : string :=
  (("Epoch " ++ py.str (t + 1) ++ py.newline ++ epoch_rule) ++ py.newline)%string.

Definition epoch_calls (epochs : nat) (ts : list nat) : list py.event :=
  flat_map
    (fun t => [py.train_call t; py.test_call t (Nat.eqb t (epochs - 1))]) ts.

(** The name the main module derives from its arguments. *)
Definition output_stem (C : collaborators) : string :=
  let a := parse_model_arguments C in
  (arg_output a
     ++ "_s" ++ float_text C (arg_sample a)
     ++ "_b" ++ float_text C (arg_beta a)
     ++ "_lr" ++ float_text C (arg_learning_rate a)
     ++ "_ld" ++ py.str (arg_latent_dim a)
     ++ "_hd" ++ py.str (arg_hidden_dim a)
     ++ "_bs" ++ py.str (arg_batch_size a)
     ++ "_epo" ++ py.str (arg_epochs a))%string.

(** Collaborators as [idle_collaborators], with other arguments or
    another loader. *)
Definition with_arguments (C : collaborators) (a : arguments) : collaborators :=
  {| optim := optim C;
     parse_model_arguments := a;
     create_dataloader := create_dataloader C;
     cuda_is_available := cuda_is_available C;
     new_EncoderNN := new_EncoderNN C;
     new_DecoderNN := new_DecoderNN C;
     Adam := Adam C;
     train := train C;
     test := test C;
     float_text := float_text C |}.

Definition with_loader (C : collaborators)
  (loader : string -> nat -> R -> list batch) : collaborators :=
  {| optim := optim C;
     parse_model_arguments := parse_model_arguments C;
     create_dataloader := loader;
     cuda_is_available := cuda_is_available C;
     new_EncoderNN := new_EncoderNN C;
     new_DecoderNN := new_DecoderNN C;
     Adam := Adam C;
     train := train C;
     test := test C;
     float_text := float_text C |}.

Definition small_arguments : arguments :=
  {| arg_train_data := "train.h5ad"; arg_test_data := "test.h5ad";
     arg_output := "vae"; arg_epochs := 2; arg_batch_size := 4;
     arg_sample := 1; arg_latent_dim := 2; arg_hidden_dim := 8;
     arg_learning_rate := 1; arg_beta := 1 |}.

Definition small_collaborators : collaborators :=
  with_arguments idle_collaborators small_arguments.

Definition unfed_collaborators : collaborators :=
  with_loader idle_collaborators (fun _ _ _ => []).

(** ** Well-shaped networks

    The shapes the constructors give the layers: [nn.Linear(n_in, n_out)]
    holds [n_out] rows of [n_in] weights and [n_out] biases.  On tensors
    of these shapes no product meets operands of different widths. *)

Definition in_features (L : torch.Linear) (n : nat) : Prop :=
  columns n (torch.weight L).

Definition layer (L : torch.Linear) (n_in n_out : nat) : Prop :=
  in_features L n_in /\ out_features L n_out.

(** [EncoderNN(input_dim, latent_dim, hidden_dim)] *)
Definition EncoderNN_shaped (self : EncoderNN.t)
  (input_dim latent_dim hidden_dim : nat) : Prop :=
  layer (EncoderNN.linear1 self) input_dim hidden_dim
  /\ layer (EncoderNN.linear2 self) hidden_dim latent_dim
  /\ layer (EncoderNN.linear3 self) hidden_dim latent_dim.

(** [DecoderNN(input_dim, latent_dim, hidden_dim)] *)
Definition DecoderNN_shaped (self : DecoderNN.t)
  (input_dim latent_dim hidden_dim : nat) : Prop :=
  layer (DecoderNN.linear1 self) latent_dim hidden_dim
  /\ layer (DecoderNN.linear2 self) hidden_dim input_dim.

(** An encoder and a decoder for two features, three hidden units and
    two latent coordinates, the second head of the encoder all zero, and
    a batch of two examples for them. *)
Definition small_encoder : EncoderNN.t :=
  {| EncoderNN.linear1 :=
       {| torch.weight := [[1; 0]; [0; 1]; [1; 1]]; torch.bias := [0; 0; 0] |};
     EncoderNN.linear2 :=
       {| torch.weight := [[1; 0; 0]; [0; 1; 0]]; torch.bias := [0; 0] |};
     EncoderNN.linear3 :=
       {| torch.weight := [[0; 0; 0]; [0; 0; 0]]; torch.bias := [0; 0] |} |}.

Definition small_decoder : DecoderNN.t :=
  {| DecoderNN.linear1 :=
       {| torch.weight := [[1; 0]; [0; 1]; [1; 1]]; torch.bias := [0; 0; 0] |};
     DecoderNN.linear2 :=
       {| torch.weight := [[1; 0; 0]; [0; 1; 0]]; torch.bias := [0; 0] |} |}.

Definition small_vae : VariationalAutoencoder.t :=
  VariationalAutoencoder.init small_encoder small_decoder 1.

Definition two_examples : batch := [[Leaf 1; Leaf 2]; [Leaf 3; Leaf 4]].

(** What two epochs with [idle_collaborators] return. *)
Definition idle_history : history :=
  {| train_elbo_list := [0; 0]; train_Dkl_list := [0; 0];
     train_recon_loss_list := [0; 0];
     test_elbo_list := [0; 0]; test_Dkl_list := [0; 0];
     test_recon_loss_list := [0; 0] |}.

(** ** The encoder on float32 tensors

    The parameters of [nn.Linear] are float32 tensors, and so is every
    tensor computed from them.  The part of the encoder that decides the
    standard deviation, lines 28 to 34 and 60 to 62, is read here on
    float32 values: a number of the format, an infinity or NaN.  An
    operation returns its exact result rounded to the nearest number of
    the format, ties to even, with gradual underflow, and an infinity
    when the rounded result exceeds the greatest finite number; the two
    zeros are not told apart.  The exponential is taken correctly
    rounded.  A layer applied to rows of another width raises; torch
    leaves the order in which a product accumulates to its library, here
    it runs from the last term to the first. *)

Module float32.

Inductive t : Type :=
| Finite (r : R)
| PosInf
| NegInf
| NaN.

Definition pow2 (e : Z) : R := powerRZ 2 e.

(** The exponent [e] with [2^(e-1) <= |x| < 2^e]. *)
Definition mag (x : R) : Z := (Zfloor (ln (Rabs x) / ln 2) + 1)%Z.

(** The exponent of the last of the 24 bits of [x], not below that of
    the least subnormal number, [2^-149]. *)
Definition cexp (x : R) : Z := Z.max (mag x - 24) (-149).

Definition nearest_even (y : R) : Z :=
  let n := Zfloor y in
  if Rlt_dec (y - IZR n) (1 / 2) then n
  else if Rlt_dec (1 / 2) (y - IZR n) then (n + 1)%Z
  else if Z.even n then n else (n + 1)%Z.

Definition round (x : R) : R :=
  IZR (nearest_even (x * pow2 (- cexp x))) * pow2 (cexp x).

Definition max_finite : R := IZR (2 ^ 24 - 1) * pow2 104.

(** What an operation of exact result [x] returns. *)
Definition of_real (x : R) : t :=
  if Rle_dec (Rabs (round x)) max_finite then Finite (round x)
  else if Rlt_dec 0 x then PosInf else NegInf.

(** [torch.exp] on one entry. *)
Definition exp (a : t) : t :=
  match a with
  | Finite r => of_real (Rtrigo_def.exp r)
  | PosInf => PosInf
  | NegInf => Finite 0
  | NaN => NaN
  end.

(** [a / c] for a Python number [c] other than zero. *)
Definition div_scalar (a : t) (c : R) : t :=
  match a with
  | Finite r => of_real (r / c)
  | PosInf => if Rlt_dec 0 c then PosInf else NegInf
  | NegInf => if Rlt_dec 0 c then NegInf else PosInf
  | NaN => NaN
  end.

(** A finite [x] times an infinity, positive when [pos]. *)
Definition sign_inf (x : R) (pos : bool) : t :=
  if Rlt_dec 0 x then (if pos then PosInf else NegInf)
  else if Rlt_dec x 0 then (if pos then NegInf else PosInf)
  else NaN.

Definition mul (a b : t) : t :=
  match a, b with
  | NaN, _ | _, NaN => NaN
  | Finite x, Finite y => of_real (x * y)
  | Finite x, PosInf | PosInf, Finite x => sign_inf x true
  | Finite x, NegInf | NegInf, Finite x => sign_inf x false
  | PosInf, PosInf | NegInf, NegInf => PosInf
  | PosInf, NegInf | NegInf, PosInf => NegInf
  end.

Definition add (a b : t) : t :=
  match a, b with
  | NaN, _ | _, NaN => NaN
  | Finite x, Finite y => of_real (x + y)
  | PosInf, NegInf | NegInf, PosInf => NaN
  | PosInf, _ | _, PosInf => PosInf
  | NegInf, _ | _, NegInf => NegInf
  end.

(** [F.relu] on one entry. *)
Definition relu (a : t) : t :=
  match a with
  | Finite r => Finite (Rmax 0 r)
  | PosInf => PosInf
  | NegInf => Finite 0
  | NaN => NaN
  end.

Definition tensor := list (list t).

Record Linear : Type := mkLinear { weight : tensor; bias : list t }.

(** [None] stands for the [RuntimeError] of operands whose widths differ. *)
Fixpoint dot (w row : list t) : option t :=
  match w, row with
  | [], [] => Some (Finite 0)
  | a :: w', v :: row' =>
      match dot w' row' with
      | Some acc => Some (add (mul a v) acc)
      | None => None
      end
  | _, _ => None
  end.

Fixpoint outputs (W : tensor) (b : list t) (row : list t) : option (list t) :=
  match W, b with
  | [], [] => Some []
  | w :: W', b0 :: b' =>
      match dot w row, outputs W' b' row with
      | Some d, Some rest => Some (add d b0 :: rest)
      | _, _ => None
      end
  | _, _ => None
  end.

Fixpoint linear (L : Linear) (x : tensor) : option tensor :=
  match x with
  | [] => Some []
  | row :: x' =>
      match outputs (weight L) (bias L) row, linear L x' with
      | Some r, Some rest => Some (r :: rest)
      | _, _ => None
      end
  end.

Module EncoderNN.

Record t : Type := mk { linear1 : Linear; linear2 : Linear; linear3 : Linear }.

(** [x] is the batch already flattened: flattening moves no number. *)
Definition forward (self : t) (x : tensor) : option (tensor * tensor) :=
  match linear (linear1 self) x with
  | None => None
  | Some x =>
      let x := map (map relu) x in
      match linear (linear2 self) x, linear (linear3 self) x with
      | Some mu, Some pre => Some (mu, map (map exp) pre)
      | _, _ => None
      end
  end.

End EncoderNN.

Module EncoderGaussian.

Record t : Type := mk { encoder : EncoderNN.t }.

(** The two values of [forward] that do not depend on the random draw:
    [mu] and [std]. *)
Definition forward (self : t) (x : tensor) : option (tensor * tensor) :=
  match EncoderNN.forward (encoder self) x with
  | Some (mu, log_var) =>
      let std := map (map exp) (map (map (fun v => div_scalar v 2)) log_var) in
      Some (mu, std)
  | None => None
  end.

End EncoderGaussian.

(** [1 <= s], and [1 < s], for a float32 value. *)
Definition at_least_one (s : t) : Prop :=
  match s with
  | Finite r => 1 <= r
  | PosInf => True
  | NegInf | NaN => False
  end.

Definition above_one (s : t) : Prop :=
  match s with
  | Finite r => 1 < r
  | PosInf => True
  | NegInf | NaN => False
  end.

(** An encoder for one feature, one hidden unit and one latent
    coordinate: every weight zero, the bias of the second head -32. *)
Definition cold_encoder : EncoderGaussian.t :=
  EncoderGaussian.mk
    {| EncoderNN.linear1 := {| weight := [[Finite 0]]; bias := [Finite 0] |};
       EncoderNN.linear2 := {| weight := [[Finite 0]]; bias := [Finite 0] |};
       EncoderNN.linear3 := {| weight := [[Finite 0]]; bias := [Finite (-32)] |} |}.

End float32.

(** ** Lists and tensors *)

Section ZipLemmas.

Context {A B C D E : Type}.

Lemma zip_with_ext (f g : A -> B -> C) (a : list A) (b : list B) :
  (forall x y, f x y = g x y) -> zip_with f a b = zip_with g a b.
Proof.
  intros H. revert b.
  induction a as [|x a IH]; intros [|y b]; simpl; auto.
  now rewrite H, IH.
Qed.

Lemma zip_with_length (f : A -> B -> C) (a : list A) (b : list B) :
  length (zip_with f a b) = Nat.min (length a) (length b).
Proof.
  revert b.
  induction a as [|x a IH]; intros [|y b]; simpl; auto.
Qed.

Lemma map_zip_with (k : C -> D) (g : A -> B -> C) (a : list A) (b : list B) :
  map k (zip_with g a b) = zip_with (fun x y => k (g x y)) a b.
Proof.
  revert b.
  induction a as [|x a IH]; intros [|y b]; simpl; auto.
  now rewrite IH.
Qed.

Lemma zip_with_map_map (f : C -> D -> E) (g : A -> C) (h : B -> D)
  (a : list A) (b : list B) :
  zip_with f (map g a) (map h b) = zip_with (fun x y => f (g x) (h y)) a b.
Proof.
  revert b.
  induction a as [|x a IH]; intros [|y b]; simpl; auto.
  now rewrite IH.
Qed.

Lemma zip_with_zip_map_l (f : C -> D -> E) (g : A -> B -> C) (h : A -> D)
  (a : list A) (b : list B) :
  zip_with f (zip_with g a b) (map h a)
  = zip_with (fun x y => f (g x y) (h x)) a b.
Proof.
  revert b.
  induction a as [|x a IH]; intros [|y b]; simpl; auto.
  now rewrite IH.
Qed.

Lemma zip_with_zip_map (f : C -> D -> E) (g : A -> B -> C)
  (a : list A) (b : list B) (c : list D) :
  zip_with f (zip_with g a b) c
  = zip_with3 (fun x y z => f (g x y) z) a b c.
Proof.
  revert b c.
  induction a as [|x a IH]; intros [|y b] [|z c]; simpl; auto.
  now rewrite IH.
Qed.

Lemma zip_with3_ext (f g : A -> B -> C -> D)
  (a : list A) (b : list B) (c : list C) :
  (forall x y z, f x y z = g x y z) -> zip_with3 f a b c = zip_with3 g a b c.
Proof.
  intros H. revert b c.
  induction a as [|x a IH]; intros [|y b] [|z c]; simpl; auto.
  now rewrite H, IH.
Qed.

Lemma zip_with3_map_r (f : A -> B -> D -> E) (h : C -> D)
  (a : list A) (b : list B) (c : list C) :
  zip_with3 f a b (map h c) = zip_with3 (fun x y z => f x y (h z)) a b c.
Proof.
  revert b c.
  induction a as [|x a IH]; intros [|y b] [|z c]; simpl; auto.
  now rewrite IH.
Qed.

Lemma zip_with_zip3_same (f : D -> E -> E) (g : A -> B -> C -> D) (h : C -> E)
  (a : list A) (b : list B) (c : list C) :
  zip_with f (zip_with3 g a b c) (map h c)
  = zip_with3 (fun x y z => f (g x y z) (h z)) a b c.
Proof.
  revert b c.
  induction a as [|x a IH]; intros [|y b] [|z c]; simpl; auto.
  now rewrite IH.
Qed.

Lemma map_zip_with3 (k : D -> E) (g : A -> B -> C -> D)
  (a : list A) (b : list B) (c : list C) :
  map k (zip_with3 g a b c) = zip_with3 (fun x y z => k (g x y z)) a b c.
Proof.
  revert b c.
  induction a as [|x a IH]; intros [|y b] [|z c]; simpl; auto.
  now rewrite IH.
Qed.

Lemma zip_with3_same_r (f : A -> B -> C -> D) (h : B -> C)
  (a : list A) (b : list B) :
  zip_with3 f a b (map h b) = zip_with (fun x y => f x y (h y)) a b.
Proof.
  revert b.
  induction a as [|x a IH]; intros [|y b]; simpl; auto.
  now rewrite IH.
Qed.

Lemma zip_with_app (f : A -> B -> C) (a a' : list A) (b b' : list B) :
  length a = length b ->
  zip_with f (a ++ a') (b ++ b') = zip_with f a b ++ zip_with f a' b'.
Proof.
  revert b.
  induction a as [|x a IH]; intros [|y b] H; simpl in *; try discriminate; auto.
  now rewrite IH by lia.
Qed.

End ZipLemmas.

Lemma zip_with_swap {A B C : Type} (f : A -> B -> C) (a : list A) (b : list B) :
  zip_with f a b = zip_with (fun y x => f x y) b a.
Proof.
  revert b.
  induction a as [|x a IH]; intros [|y b]; simpl; auto.
  now rewrite IH.
Qed.

(** The same, one level up: on tensors of rank 2. *)

Lemma map_m_map_m (f g : R -> R) (t : mat) :
  map_m f (map_m g t) = map_m (fun v => f (g v)) t.
Proof.
  unfold map_m. rewrite map_map.
  apply map_ext. intros row. apply map_map.
Qed.

Lemma map_m_zip_m (k : R -> R) (g : R -> R -> R) (a b : mat) :
  map_m k (zip_m g a b) = zip_m (fun x y => k (g x y)) a b.
Proof.
  unfold map_m, zip_m. rewrite map_zip_with.
  apply zip_with_ext. intros; apply map_zip_with.
Qed.

Lemma zip_m_map_m (f : R -> R -> R) (g h : R -> R) (a b : mat) :
  zip_m f (map_m g a) (map_m h b) = zip_m (fun x y => f (g x) (h y)) a b.
Proof.
  unfold map_m, zip_m. rewrite zip_with_map_map.
  apply zip_with_ext. intros; apply zip_with_map_map.
Qed.

Lemma zip_m_zip_map_l (f g : R -> R -> R) (h : R -> R) (a b : mat) :
  zip_m f (zip_m g a b) (map_m h a) = zip_m (fun x y => f (g x y) (h x)) a b.
Proof.
  unfold map_m, zip_m. rewrite zip_with_zip_map_l.
  apply zip_with_ext. intros; apply zip_with_zip_map_l.
Qed.

Lemma zip_m_zip_map (f g : R -> R -> R) (h : R -> R) (a b c : mat) :
  zip_m f (zip_m g a b) (map_m h c)
  = zip_m3 (fun x y z => f (g x y) (h z)) a b c.
Proof.
  unfold map_m, zip_m, zip_m3.
  rewrite zip_with_zip_map, zip_with3_map_r.
  apply zip_with3_ext. intros.
  now rewrite zip_with_zip_map, zip_with3_map_r.
Qed.

Lemma zip_m_zip3_same (f : R -> R -> R) (g : R -> R -> R -> R) (h : R -> R)
  (a b c : mat) :
  zip_m f (zip_m3 g a b c) (map_m h c)
  = zip_m3 (fun x y z => f (g x y z) (h z)) a b c.
Proof.
  unfold map_m, zip_m, zip_m3. rewrite zip_with_zip3_same.
  apply zip_with3_ext. intros; apply zip_with_zip3_same.
Qed.

Lemma map_m_zip_m3 (k : R -> R) (g : R -> R -> R -> R) (a b c : mat) :
  map_m k (zip_m3 g a b c) = zip_m3 (fun x y z => k (g x y z)) a b c.
Proof.
  unfold map_m, zip_m3. rewrite map_zip_with3.
  apply zip_with3_ext. intros; apply map_zip_with3.
Qed.

Lemma zip_m3_same_r (f : R -> R -> R -> R) (h : R -> R) (a b : mat) :
  zip_m3 f a b (map_m h b) = zip_m (fun x y => f x y (h y)) a b.
Proof.
  unfold map_m, zip_m, zip_m3. rewrite zip_with3_same_r.
  apply zip_with_ext. intros; apply zip_with3_same_r.
Qed.

Lemma zip_m_swap (f : R -> R -> R) (a b : mat) :
  zip_m f a b = zip_m (fun y x => f x y) b a.
Proof.
  unfold zip_m. rewrite zip_with_swap.
  apply zip_with_ext. intros; apply zip_with_swap.
Qed.

Lemma zip_m_ext (f g : R -> R -> R) (a b : mat) :
  (forall x y, f x y = g x y) -> zip_m f a b = zip_m g a b.
Proof.
  intros H. unfold zip_m.
  apply zip_with_ext. intros; now apply zip_with_ext.
Qed.

Example flatten_rank3 :
  torch.flatten [[Node [Leaf 1; Leaf 2]; Node [Leaf 3; Leaf 4]]; [Leaf 5; Leaf 6]]
  = [[1; 2; 3; 4]; [5; 6]].
Proof. reflexivity. Qed.

Example shape1_five_columns : torch.shape1 five_columns = 5%nat.
Proof. reflexivity. Qed.

Lemma vsum_app (u v : vec) : torch.vsum (u ++ v) = torch.vsum u + torch.vsum v.
Proof.
  unfold torch.vsum.
  induction u as [|a u IH]; simpl; [lra | rewrite IH; lra].
Qed.

(** ** The KL term *)

(** The tensor expression of [kl_divergence] adds up, example by example
    and coordinate by coordinate, the terms [kl_term]. *)
Lemma kl_divergence_pointwise (mu sigma : mat) :
  VariationalAutoencoder.kl_divergence mu sigma = kl_batch mu sigma.
Proof.
  unfold VariationalAutoencoder.kl_divergence, kl_batch.
  unfold torch.sum, torch.sub_scalar, torch.sub, torch.add, torch.pow, torch.log.
  rewrite zip_m_map_m, zip_m_zip_map_l, map_m_zip_m.
  rewrite zip_m_swap. unfold zip_m.
  rewrite map_zip_with. f_equal.
Qed.

Lemma kl_batch_app (mu1 mu2 sigma1 sigma2 : mat) :
  length mu1 = length sigma1 ->
  kl_batch (mu1 ++ mu2) (sigma1 ++ sigma2)
  = kl_batch mu1 sigma1 + kl_batch mu2 sigma2.
Proof.
  intros H. unfold kl_batch.
  now rewrite zip_with_app, vsum_app.
Qed.

Lemma kl_batch_replicate (n : nat) (mu sigma : mat) :
  length mu = length sigma ->
  kl_batch (replicate n mu) (replicate n sigma) = INR n * kl_batch mu sigma.
Proof.
  intros H. unfold replicate.
  induction n as [|n IH].
  - simpl. unfold kl_batch; simpl. lra.
  - change (repeat mu (S n)) with (mu :: repeat mu n).
    change (repeat sigma (S n)) with (sigma :: repeat sigma n).
    cbn [concat]. rewrite kl_batch_app by exact H.
    rewrite IH, S_INR. lra.
Qed.

(** C2.  [kl_divergence] returns the sum of [std^2 + mu^2 - log(std) - 0.5]
    over every example and every latent coordinate of the batch at once;
    nothing is averaged, so a batch made of [n] copies of another has [n]
    times its divergence. *)
Theorem kl_divergence_batch_sum (n : nat) (mu sigma : mat) :
  length mu = length sigma ->
  VariationalAutoencoder.kl_divergence mu sigma
  = torch.vsum
      (zip_with
         (fun mu_i sigma_i =>
            torch.vsum
              (zip_with (fun m s => s ^ 2 + m ^ 2 - ln s - 1 / 2) mu_i sigma_i))
         mu sigma)
  /\ VariationalAutoencoder.kl_divergence (replicate n mu) (replicate n sigma)
     = INR n * VariationalAutoencoder.kl_divergence mu sigma.
Proof.
  intros H. split.
  - apply kl_divergence_pointwise.
  - rewrite !kl_divergence_pointwise. now apply kl_batch_replicate.
Qed.

Lemma kl_divergence_batch_sum_witness :
  length [[0; 1]; [2; 3]] = length [[1; 2]; [3; 4]]
  /\ VariationalAutoencoder.kl_divergence [[0; 1]; [2; 3]] [[1; 2]; [3; 4]]
  = torch.vsum
      (zip_with
         (fun mu_i sigma_i =>
            torch.vsum
              (zip_with (fun m s => s ^ 2 + m ^ 2 - ln s - 1 / 2) mu_i sigma_i))
         [[0; 1]; [2; 3]] [[1; 2]; [3; 4]])
  /\ VariationalAutoencoder.kl_divergence
       (replicate 3 [[0; 1]; [2; 3]]) (replicate 3 [[1; 2]; [3; 4]])
     = INR 3 * VariationalAutoencoder.kl_divergence [[0; 1]; [2; 3]] [[1; 2]; [3; 4]].
Proof.
  split; [reflexivity|].
  apply (kl_divergence_batch_sum 3 [[0; 1]; [2; 3]] [[1; 2]; [3; 4]]).
  reflexivity.
Defined.

(** The logarithm lies under its tangent at 1. *)
Lemma ln_le_pred (s : R) : 0 < s -> ln s <= s - 1.
Proof.
  intros Hs.
  pose proof (exp_ineq1_le (ln s)) as H.
  rewrite exp_ln in H by exact Hs. lra.
Qed.

(** Every term of the sum is positive, wherever [sigma] is: the sum has
    no zero on a batch that is not empty. *)
Lemma kl_term_pos (mu sigma : R) : 0 < sigma -> 0 < kl_term mu sigma.
Proof.
  intros Hs. unfold kl_term.
  pose proof (ln_le_pred sigma Hs).
  nra.
Qed.




Lemma kl_divergence_one_coordinate (mu sigma : R) :
  0 < sigma -> 0 < VariationalAutoencoder.kl_divergence [[mu]] [[sigma]].
Proof.
  intros Hs. rewrite kl_divergence_pointwise.
  unfold kl_batch, kl_example, torch.vsum. simpl.
  pose proof (kl_term_pos mu sigma Hs). lra.
Qed.

(** The closed form vanishes at the prior; the term of the code is the
    closed form with the squares counted twice. *)
Lemma kl_gauss_at_prior : kl_gauss 0 1 = 0.
Proof. unfold kl_gauss. rewrite ln_1. lra. Qed.

Lemma kl_term_excess (mu sigma : R) :
  kl_term mu sigma = kl_gauss mu sigma + (sigma ^ 2 + mu ^ 2) / 2.
Proof. unfold kl_term, kl_gauss. lra. Qed.

(** C3.  At the prior itself, [mu = 0] and [sigma = 1], the value the
    code computes for one coordinate is [1/2], not [0]. *)
Theorem kl_divergence_at_prior :
  VariationalAutoencoder.kl_divergence [[0]] [[1]] = 1 / 2
  /\ VariationalAutoencoder.kl_divergence [[0]] [[1]] <> 0.
Proof.
  assert (E : VariationalAutoencoder.kl_divergence [[0]] [[1]] = 1 / 2).
  { rewrite kl_divergence_pointwise.
    unfold kl_batch, kl_example, kl_term, torch.vsum. simpl.
    rewrite ln_1. lra. }
  split; [exact E | rewrite E; lra].
Qed.

(** ** The reconstruction log-likelihood *)

(** [Normal.log_prob], position by position. *)
Lemma Normal_log_prob_pointwise (d : torch.Normal.t) (value : mat) :
  torch.Normal.log_prob d value
  = zip_m3
      (fun v l s => - (v - l) ^ 2 / (2 * s ^ 2) - ln s - ln (sqrt (2 * PI)))
      value (torch.Normal.loc d) (torch.Normal.scale d).
Proof.
  unfold torch.Normal.log_prob.
  unfold torch.sub_scalar, torch.sub, torch.div, torch.neg, torch.pow,
    torch.scalar_mul, torch.log.
  rewrite !map_m_zip_m, map_m_map_m.
  rewrite (zip_m_zip_map Rdiv (fun x y => - (x - y) ^ 2)).
  rewrite zip_m_zip3_same.
  reflexivity.
Qed.

Lemma log_prob_xz_pointwise (mean : mat) (log_variance : R) (x : batch) :
  DecoderGaussian.log_prob_xz mean log_variance x
  = map torch.vsum
      (zip_m
         (fun v m =>
            - (v - m) ^ 2 / (2 * Rtrigo_def.exp log_variance ^ 2)
            - ln (Rtrigo_def.exp log_variance) - ln (sqrt (2 * PI)))
         (torch.flatten x) mean).
Proof.
  unfold DecoderGaussian.log_prob_xz, torch.sum_dim1.
  rewrite Normal_log_prob_pointwise. cbn [torch.Normal.loc torch.Normal.scale].
  unfold torch.expand_as. now rewrite zip_m3_same_r.
Qed.

(** The density behind [normal_log_density]. *)
Lemma normal_log_density_ln (mean variance x : R) :
  0 < variance ->
  normal_log_density mean variance x = ln (normal_density mean variance x).
Proof.
  intros Hv. unfold normal_log_density, normal_density.
  assert (Hs : 0 < sqrt (2 * PI * variance)).
  { apply sqrt_lt_R0. pose proof PI_RGT_0. nra. }
  rewrite ln_mult; [| now apply Rinv_0_lt_compat | apply exp_pos].
  rewrite ln_Rinv by exact Hs. rewrite ln_exp. lra.
Qed.

(** What torch computes for a scale [s] is the log-density of variance
    [s^2]. *)
Lemma log_prob_term_density (v m s : R) :
  0 < s ->
  - (v - m) ^ 2 / (2 * s ^ 2) - ln s - ln (sqrt (2 * PI))
  = normal_log_density m (s ^ 2) v.
Proof.
  intros Hs. unfold normal_log_density.
  assert (Hpi : 0 < 2 * PI) by (pose proof PI_RGT_0; lra).
  rewrite (sqrt_mult (2 * PI) (s ^ 2)) by (try lra; apply pow2_ge_0).
  rewrite sqrt_pow2 by lra.
  rewrite ln_mult; [lra | now apply sqrt_lt_R0 | exact Hs].
Qed.

(** What the decoder scores: a Gaussian whose standard deviation, not
    whose variance, is [exp(log_variance)]. *)
Lemma log_prob_xz_density (mean : mat) (log_variance : R) (x : batch) :
  DecoderGaussian.log_prob_xz mean log_variance x
  = zip_with (gaussian_ll (Rtrigo_def.exp log_variance ^ 2)) mean (torch.flatten x).
Proof.
  rewrite log_prob_xz_pointwise. unfold zip_m, gaussian_ll.
  rewrite map_zip_with, zip_with_swap.
  apply zip_with_ext. intros m_i x_i. f_equal.
  rewrite zip_with_swap.
  apply zip_with_ext. intros m v.
  apply log_prob_term_density, exp_pos.
Qed.

(** With the parameter at its initial value the scale and the variance
    are both 1, and the score is the one of variance [exp(log_variance)]. *)
Lemma log_prob_xz_at_init (mean : mat) (x : batch) :
  DecoderGaussian.log_prob_xz mean 0 x
  = zip_with (gaussian_ll (Rtrigo_def.exp 0)) mean (torch.flatten x).
Proof.
  rewrite log_prob_xz_density. rewrite exp_0.
  replace (1 ^ 2) with 1 by lra. reflexivity.
Qed.

Lemma ln_sqrt_half (y : R) : 0 < y -> ln (sqrt y) = ln y / 2.
Proof.
  intros Hy.
  assert (Hs : 0 < sqrt y) by now apply sqrt_lt_R0.
  assert (E : ln y = ln (sqrt y) + ln (sqrt y)).
  { rewrite <- ln_mult by exact Hs. now rewrite sqrt_sqrt by lra. }
  lra.
Qed.

Lemma zero_decoder_forward :
  DecoderNN.forward zero_decoder [[0]] = [[1 / 2]].
Proof.
  unfold DecoderNN.forward, zero_decoder, zero_linear; simpl.
  unfold torch.dot, torch.vsum; simpl.
  replace (0 * 0 + 0 + 0) with 0 by lra.
  rewrite Rmax_left by lra.
  replace (0 * 0 + 0 + 0) with 0 by lra.
  rewrite Ropp_0, exp_0.
  replace (1 / (1 + 1)) with (1 / 2) by lra.
  reflexivity.
Qed.

(** C5.  A decoder whose parameter has moved to [log_variance = 1], on an
    input it reconstructs exactly: the score returned is
    [-1 - log(sqrt(2 pi))], that of the standard deviation [e]; the
    log-density of variance [e = exp(log_variance)] at the same point is
    [-1/2 - log(sqrt(2 pi))]. *)
Theorem decoder_scores_scale_not_variance :
  let self := DecoderGaussian.mk zero_decoder 1 in
  let z := [[0]] in
  let x := [[Leaf (1 / 2)]] in
  fst (DecoderGaussian.forward self z x) = [[1 / 2]]
  /\ snd (DecoderGaussian.forward self z x) = [- 1 - ln (sqrt (2 * PI))]
  /\ zip_with (gaussian_ll (Rtrigo_def.exp (DecoderGaussian.log_variance self)))
       (fst (DecoderGaussian.forward self z x)) (torch.flatten x)
     = [- (1 / 2) - ln (sqrt (2 * PI))].
Proof.
  cbv zeta. unfold DecoderGaussian.forward.
  cbn [fst snd DecoderGaussian.decoder DecoderGaussian.log_variance].
  rewrite zero_decoder_forward.
  assert (Hpi : 0 < 2 * PI) by (pose proof PI_RGT_0; lra).
  split; [reflexivity | split].
  - rewrite log_prob_xz_pointwise. simpl. unfold torch.vsum; simpl.
    rewrite ln_exp. f_equal.
    replace (1 / 2 - 1 / 2) with 0 by lra.
    unfold Rdiv. rewrite Rmult_0_l, Ropp_0, Rmult_0_l. lra.
  - simpl. unfold gaussian_ll, normal_log_density, torch.vsum; simpl.
    f_equal.
    rewrite (ln_sqrt_half (2 * PI * Rtrigo_def.exp 1))
      by (pose proof (exp_pos 1); nra).
    rewrite ln_mult by (try lra; apply exp_pos).
    rewrite ln_exp, (ln_sqrt_half (2 * PI)) by lra.
    replace (1 / 2 - 1 / 2) with 0 by lra.
    unfold Rdiv. rewrite Rmult_0_l, Ropp_0, Rmult_0_l. lra.
Qed.

(** One feature: the score is largest at the observed value. *)
Lemma log_prob_term_le (v m s c : R) :
  0 < s ->
  - (v - m) ^ 2 / (2 * s ^ 2) - ln s - c
  <= - (v - v) ^ 2 / (2 * s ^ 2) - ln s - c.
Proof.
  intros Hs.
  assert (Hk : 0 < / (2 * s ^ 2)) by (apply Rinv_0_lt_compat; nra).
  replace (v - v) with 0 by lra.
  unfold Rdiv. set (k := / (2 * s ^ 2)) in *.
  pose proof (pow2_ge_0 (v - m)). nra.
Qed.

Lemma row_score_le (F : R -> R -> R) (x_i mean_i : vec) :
  length mean_i = length x_i ->
  (forall v m, F v m <= F v v) ->
  torch.vsum (zip_with F x_i mean_i) <= torch.vsum (zip_with F x_i x_i).
Proof.
  intros Hlen HF. revert mean_i Hlen. unfold torch.vsum.
  induction x_i as [|v x_i IH]; intros [|m mean_i] Hlen;
    simpl in *; try discriminate; try lra.
  specialize (IH mean_i ltac:(lia)). specialize (HF v m). lra.
Qed.

(** C6.  For a fixed [log_variance], no reconstruction mean scores an
    example higher than the flattened input itself does. *)
Theorem log_prob_xz_max_at_x (mean : mat) (log_variance : R) (x : batch) :
  same_shape mean (torch.flatten x) ->
  Forall2 Rge
    (DecoderGaussian.log_prob_xz (torch.flatten x) log_variance x)
    (DecoderGaussian.log_prob_xz mean log_variance x).
Proof.
  rewrite !log_prob_xz_pointwise.
  generalize (torch.flatten x) as X. intros X H. unfold zip_m.
  induction H as [|mean_i x_i mean X Hlen _ IH]; simpl; constructor.
  - apply Rle_ge, row_score_le; [exact Hlen |].
    intros v m. apply log_prob_term_le, exp_pos.
  - exact IH.
Qed.

Lemma log_prob_xz_max_at_x_witness :
  same_shape [[1; 2]] (torch.flatten [[Leaf 0; Leaf 3]])
  /\ Forall2 Rge
       (DecoderGaussian.log_prob_xz
          (torch.flatten [[Leaf 0; Leaf 3]]) 0 [[Leaf 0; Leaf 3]])
       (DecoderGaussian.log_prob_xz [[1; 2]] 0 [[Leaf 0; Leaf 3]]).
Proof.
  assert (H : same_shape [[1; 2]] (torch.flatten [[Leaf 0; Leaf 3]])).
  { repeat constructor. }
  split; [exact H |].
  exact (log_prob_xz_max_at_x [[1; 2]] 0 [[Leaf 0; Leaf 3]] H).
Defined.

(** ** The forward pass *)

Lemma EncoderGaussian_forward_unfold (self : EncoderGaussian.t) (x : batch)
  (g : torch.generator) :
  EncoderGaussian.forward self x g
  = let mu := fst (EncoderNN.forward (EncoderGaussian.encoder self) x) in
    let log_var := snd (EncoderNN.forward (EncoderGaussian.encoder self) x) in
    let std := torch.exp (torch.div_scalar log_var 2) in
    let eps := torch.standard_normal_like mu g in
    ((torch.add mu (torch.mul (fst eps) std), mu, std), snd eps).
Proof.
  unfold EncoderGaussian.forward, EncoderNN.forward.
  cbn [fst snd]. unfold EncoderGaussian.sample, torch.Normal.rsample.
  unfold torch.bind, torch.ret. cbn [torch.Normal.loc torch.Normal.scale].
  now destruct (torch.standard_normal_like _ g).
Qed.

Lemma VariationalAutoencoder_forward_unfold (self : VariationalAutoencoder.t)
  (x : batch) (g : torch.generator) :
  VariationalAutoencoder.forward self x g
  = let enc := EncoderGaussian.forward (VariationalAutoencoder.encoder self) x g in
    let z := fst (fst (fst enc)) in
    let mu := snd (fst (fst enc)) in
    let sigma := snd (fst enc) in
    let recon_loss :=
      snd (DecoderGaussian.forward (VariationalAutoencoder.decoder self) z x) in
    let Dkl := VariationalAutoencoder.kl_divergence mu sigma in
    ((torch.mean (map (fun r => Dkl * VariationalAutoencoder.beta self - r) recon_loss),
      torch.mean [Dkl], torch.mean recon_loss, z),
     snd enc).
Proof.
  unfold VariationalAutoencoder.forward, torch.bind, torch.ret.
  destruct (EncoderGaussian.forward _ x g) as [[[z mu] sigma] g'].
  reflexivity.
Qed.

Lemma Forall_map_m (P : R -> Prop) (f : R -> R) (t : mat) :
  (forall v, P (f v)) -> Forall (Forall P) (map_m f t).
Proof.
  intros H. unfold map_m.
  apply Forall_map, Forall_forall. intros row _.
  apply Forall_map, Forall_forall. intros v _. apply H.
Qed.

(** Over the reals every component of the standard deviation the
    encoder returns is above 1: the network exponentiates its second
    head, and the wrapper exponentiates half of that positive number
    again. *)
Lemma encoder_std_above_one_real (self : EncoderGaussian.t) (x : batch)
  (g : torch.generator) :
  let '(_, _, std) := fst (EncoderGaussian.forward self x g) in
  Forall (Forall (fun s => 1 < s)) std.
Proof.
  rewrite EncoderGaussian_forward_unfold. cbn [fst snd].
  unfold EncoderNN.forward. cbn [snd].
  unfold torch.exp, torch.div_scalar. rewrite !map_m_map_m.
  apply Forall_map_m. intros v.
  rewrite <- exp_0. apply exp_increasing.
  pose proof (exp_pos v). lra.
Qed.

(** *** How many examples come out *)

Lemma map_m_length (f : R -> R) (t : mat) : length (map_m f t) = length t.
Proof. unfold map_m. apply length_map. Qed.

Lemma zip_m_length (f : R -> R -> R) (a b : mat) :
  length (zip_m f a b) = Nat.min (length a) (length b).
Proof. unfold zip_m. apply zip_with_length. Qed.

Lemma linear_length (L : torch.Linear) (t : mat) :
  length (torch.linear L t) = length t.
Proof. unfold torch.linear. apply length_map. Qed.

Lemma standard_normal_like_length (t : mat) (g : torch.generator) :
  length (fst (torch.standard_normal_like t g)) = length t.
Proof.
  revert g. induction t as [|row t IH]; intros g; simpl; [reflexivity |].
  unfold torch.bind, torch.ret, torch.randn.
  specialize (IH {| torch.draws := torch.draws g; torch.seed := torch.seed g;
                    torch.offset := (torch.offset g + length row)%nat |}).
  destruct (torch.standard_normal_like t _) as [es g']. simpl in *.
  now rewrite IH.
Qed.

Lemma EncoderNN_forward_length (self : EncoderNN.t) (x : batch) :
  length (fst (EncoderNN.forward self x)) = length x
  /\ length (snd (EncoderNN.forward self x)) = length x.
Proof.
  unfold EncoderNN.forward, torch.exp, torch.relu, torch.flatten. cbn [fst snd].
  now rewrite ?map_m_length, ?linear_length, ?map_m_length, ?linear_length,
    ?length_map.
Qed.

Lemma EncoderGaussian_forward_length (self : EncoderGaussian.t) (x : batch)
  (g : torch.generator) :
  length (fst (fst (fst (EncoderGaussian.forward self x g)))) = length x.
Proof.
  rewrite EncoderGaussian_forward_unfold. cbn [fst snd].
  destruct (EncoderNN_forward_length (EncoderGaussian.encoder self) x) as [Hmu Hlv].
  unfold torch.add, torch.mul, torch.exp, torch.div_scalar.
  rewrite !zip_m_length, !map_m_length, standard_normal_like_length, Hmu, Hlv.
  lia.
Qed.

Lemma DecoderGaussian_forward_length (self : DecoderGaussian.t) (z : mat)
  (x : batch) :
  length z = length x ->
  length (snd (DecoderGaussian.forward self z x)) = length x.
Proof.
  intros Hz. unfold DecoderGaussian.forward. cbn [snd].
  rewrite log_prob_xz_pointwise, length_map, zip_m_length.
  unfold DecoderNN.forward, torch.sigmoid, torch.relu, torch.flatten.
  rewrite !map_m_length, !linear_length, map_m_length, linear_length, length_map.
  rewrite Hz. apply Nat.min_id.
Qed.

Lemma vsum_map_sub (c : R) (v : vec) :
  torch.vsum (map (fun r => c - r) v) = INR (length v) * c - torch.vsum v.
Proof.
  unfold torch.vsum.
  induction v as [|r v IH]; [simpl; lra |].
  change (length (r :: v)) with (S (length v)). rewrite S_INR.
  simpl. rewrite IH. lra.
Qed.

(** A scalar broadcast against a vector comes out of the mean. *)
Lemma mean_broadcast_sub (c : R) (v : vec) :
  v <> [] -> torch.mean (map (fun r => c - r) v) = c - torch.mean v.
Proof.
  intros Hv. unfold torch.mean.
  rewrite vsum_map_sub, length_map.
  assert (Hn : INR (length v) <> 0).
  { apply not_0_INR. destruct v; [congruence | discriminate]. }
  field. exact Hn.
Qed.

(** C1.  On a batch with at least one example the loss is the mean over
    the examples of [Dkl * beta - recon_ll], the one number [Dkl] being
    set against every entry of [recon_ll]; this is [Dkl * beta] minus the
    mean of [recon_ll]. *)
Theorem forward_elbo (self : VariationalAutoencoder.t) (x : batch)
  (g : torch.generator) :
  x <> [] ->
  let '(z, mu, sigma) :=
    fst (EncoderGaussian.forward (VariationalAutoencoder.encoder self) x g) in
  let recon_ll :=
    snd (DecoderGaussian.forward (VariationalAutoencoder.decoder self) z x) in
  let Dkl := VariationalAutoencoder.kl_divergence mu sigma in
  let '(elbo, _, _, _) := fst (VariationalAutoencoder.forward self x g) in
  elbo = torch.mean
           (map (fun recon_ll_i => Dkl * VariationalAutoencoder.beta self - recon_ll_i)
              recon_ll)
  /\ elbo = Dkl * VariationalAutoencoder.beta self - torch.mean recon_ll.
Proof.
  intros Hx.
  rewrite VariationalAutoencoder_forward_unfold. cbv zeta.
  pose proof (EncoderGaussian_forward_length
                (VariationalAutoencoder.encoder self) x g) as Hz.
  destruct (EncoderGaussian.forward _ x g) as [[[z mu] sigma] g'].
  cbn [fst snd] in *.
  split; [reflexivity |].
  apply mean_broadcast_sub.
  pose proof (DecoderGaussian_forward_length
                (VariationalAutoencoder.decoder self) z x Hz) as Hr.
  intros E. rewrite E in Hr. simpl in Hr.
  destruct x; [congruence | discriminate].
Qed.

Lemma forward_elbo_witness :
  one_feature <> []
  /\ (let '(z, mu, sigma) :=
        fst (EncoderGaussian.forward (VariationalAutoencoder.encoder zero_vae)
               one_feature counting_generator) in
      let recon_ll :=
        snd (DecoderGaussian.forward (VariationalAutoencoder.decoder zero_vae)
               z one_feature) in
      let Dkl := VariationalAutoencoder.kl_divergence mu sigma in
      let '(elbo, _, _, _) :=
        fst (VariationalAutoencoder.forward zero_vae one_feature counting_generator) in
      elbo = torch.mean
               (map (fun recon_ll_i =>
                       Dkl * VariationalAutoencoder.beta zero_vae - recon_ll_i)
                  recon_ll)
      /\ elbo = Dkl * VariationalAutoencoder.beta zero_vae - torch.mean recon_ll).
Proof.
  assert (H : one_feature <> []) by discriminate.
  split; [exact H |].
  exact (forward_elbo zero_vae one_feature counting_generator H).
Defined.

Lemma mean_singleton (c : R) : torch.mean [c] = c.
Proof. unfold torch.mean, torch.vsum. simpl. field. Qed.

(** C10.  The second value returned by [forward] is [Dkl] itself, the
    sum over the examples of the batch of their divergences: taking the
    mean of a single number changes nothing. *)
Theorem forward_kl_is_batch_sum (self : VariationalAutoencoder.t) (x : batch)
  (g : torch.generator) :
  let '(_, mu, sigma) :=
    fst (EncoderGaussian.forward (VariationalAutoencoder.encoder self) x g) in
  let '(_, kl, _, _) := fst (VariationalAutoencoder.forward self x g) in
  kl = VariationalAutoencoder.kl_divergence mu sigma
  /\ kl = torch.vsum (zip_with kl_example mu sigma).
Proof.
  rewrite VariationalAutoencoder_forward_unfold. cbv zeta.
  destruct (EncoderGaussian.forward _ x g) as [[[z mu] sigma] g'].
  cbn [fst snd]. rewrite mean_singleton.
  split; [reflexivity | apply kl_divergence_pointwise].
Qed.

(** ** The configuration error *)

Section ConfigError.

Variable C : collaborators.
Variables (train_data test_data output : string).
Variables (beta learning_rate sample : R).
Variables (ldim hdim epochs batch_size : nat).

Let device : string := if cuda_is_available C then "cuda"%string else "cpu"%string.

(** The run up to the exit, field by field of the state it leaves. *)
Lemma run_config_error (w : py.world) (i : batch) (rest : list batch) (n_cols : nat) :
  py.sys_stdout w = py.TextIO py.fd_stdout ->
  create_dataloader C train_data batch_size sample = i :: rest ->
  torch.shape1 i = n_cols ->
  (n_cols < ldim)%nat ->
  run_VAE_training C train_data test_data beta learning_rate
    ldim hdim epochs batch_size sample output w
  = (py.Raise (py.SystemExit 0),
     {| py.sys_stdout := py.TextIO py.fd_stdout;
        py.sys_stderr := py.None_;
        py.out := (py.out w
                   ++ [(("Using " ++ device ++ " device") ++ py.newline)%string])
                   ++ [(config_error_message ++ py.newline)%string];
        py.err := py.err w;
        py.calls := (py.calls w
                     ++ [py.create_dataloader_call train_data batch_size sample])
                     ++ [py.create_dataloader_call test_data batch_size sample];
        py.rng := py.rng w |}).
Proof.
  intros Hout Hdl Hshape Hlt.
  apply Nat.ltb_lt in Hlt.
  unfold run_VAE_training, py.bind, py.log_call, py.print, first_n_cols.
  cbn [py.sys_stdout py.sys_stderr py.out py.err py.calls py.rng].
  rewrite Hout, Hdl, Hshape. cbn [py.write py.ret py.read_local].
  cbn [py.sys_stdout py.sys_stderr py.out py.err py.calls py.rng].
  rewrite Hlt.
  reflexivity.
Qed.

End ConfigError.

(** C9.  When the first batch has fewer columns than [ldim], the run
    ends in [sys.exit(0)], which gives the process the exit status 0;
    the message has gone to standard output, nothing to standard error,
    and [sys.stderr] is left bound to [None]. *)
Theorem config_error_exits_with_zero (C : collaborators)
  (train_data test_data : string) (beta learning_rate : R)
  (ldim hdim epochs batch_size : nat) (sample : R) (output : string)
  (w : py.world) (i : batch) (rest : list batch) (n_cols : nat) :
  py.sys_stdout w = py.TextIO py.fd_stdout ->
  create_dataloader C train_data batch_size sample = i :: rest ->
  torch.shape1 i = n_cols ->
  (n_cols < ldim)%nat ->
  let (r, w') :=
    run_VAE_training C train_data test_data beta learning_rate
      ldim hdim epochs batch_size sample output w in
  r = py.Raise (py.SystemExit 0)
  /\ py.exit_status r = 0%Z
  /\ py.out w'
     = py.out w
       ++ [(("Using " ++ (if cuda_is_available C then "cuda" else "cpu") ++ " device")
            ++ py.newline)%string;
           (config_error_message ++ py.newline)%string]
  /\ py.err w' = py.err w
  /\ py.sys_stderr w' = py.None_.
Proof.
  intros Hout Hdl Hshape Hlt.
  rewrite (run_config_error C train_data test_data output beta learning_rate
             sample ldim hdim epochs batch_size w i rest n_cols Hout Hdl Hshape Hlt).
  cbn [py.out py.err py.sys_stderr py.exit_status].
  rewrite <- app_assoc.
  repeat split.
Qed.

Lemma config_error_exits_with_zero_witness :
  py.sys_stdout (py.fresh counting_generator) = py.TextIO py.fd_stdout
  /\ create_dataloader idle_collaborators "train.h5ad" 4 1 = [five_columns]
  /\ torch.shape1 five_columns = 5%nat
  /\ (5 < 10)%nat
  /\ (let (r, w') :=
        run_VAE_training idle_collaborators "train.h5ad" "test.h5ad" 1 1
          10 8 1 4 1 "vae" (py.fresh counting_generator) in
      r = py.Raise (py.SystemExit 0)
      /\ py.exit_status r = 0%Z
      /\ py.out w'
         = py.out (py.fresh counting_generator)
           ++ [(("Using "
                 ++ (if cuda_is_available idle_collaborators then "cuda" else "cpu")
                 ++ " device") ++ py.newline)%string;
               (config_error_message ++ py.newline)%string]
      /\ py.err w' = py.err (py.fresh counting_generator)
      /\ py.sys_stderr w' = py.None_).
Proof.
  assert (H1 : py.sys_stdout (py.fresh counting_generator) = py.TextIO py.fd_stdout)
    by reflexivity.
  assert (H2 : create_dataloader idle_collaborators "train.h5ad" 4 1 = [five_columns])
    by reflexivity.
  assert (H3 : torch.shape1 five_columns = 5%nat) by reflexivity.
  assert (H4 : (5 < 10)%nat) by lia.
  repeat (split; [assumption |]).
  exact (config_error_exits_with_zero idle_collaborators "train.h5ad" "test.h5ad"
           1 1 10 8 1 4 1 "vae" (py.fresh counting_generator)
           five_columns [] 5 H1 H2 H3 H4).
Defined.

(** C4.  Five feature columns and [ldim = 10], in a process started
    afresh: the run stops before the model is built and before any
    epoch, and leaves through [SystemExit]; the message is on standard
    output, and standard error has received nothing. *)
Theorem config_error_bypasses_stderr :
  let (r, w') :=
    run_VAE_training idle_collaborators "train.h5ad" "test.h5ad" 1 1
      10 8 1 4 1 "vae" (py.fresh counting_generator) in
  r = py.Raise (py.SystemExit 0)
  /\ py.err w' = []
  /\ py.out w' = [("Using cpu device" ++ py.newline)%string;
                  (config_error_message ++ py.newline)%string]
  /\ py.calls w' = [py.create_dataloader_call "train.h5ad" 4 1;
                    py.create_dataloader_call "test.h5ad" 4 1].
Proof.
  rewrite (run_config_error idle_collaborators "train.h5ad" "test.h5ad" "vae"
             1 1 1 10 8 1 4 (py.fresh counting_generator) five_columns [] 5);
    try reflexivity; [| lia].
  cbn [py.out py.err py.calls py.fresh cuda_is_available idle_collaborators].
  repeat split.
Qed.

(** The main module has no handler: what the run raises ends it. *)
Lemma main_propagates (C : collaborators) (w w' : py.world) (e : py.exn) :
  (let a := parse_model_arguments C in
   forall output,
     run_VAE_training C (arg_train_data a) (arg_test_data a)
       (arg_beta a) (arg_learning_rate a) (arg_latent_dim a) (arg_hidden_dim a)
       (arg_epochs a) (arg_batch_size a) (arg_sample a) output w
     = (py.Raise e, w')) ->
  main C w = (py.Raise e, w').
Proof.
  cbv zeta. intros H. unfold main, py.bind. now rewrite H.
Qed.

Lemma main_config_error_status :
  py.exit_status (fst (main idle_collaborators (py.fresh counting_generator))) = 0%Z
  /\ py.err (snd (main idle_collaborators (py.fresh counting_generator))) = [].
Proof.
  pose proof
    (fun output =>
       run_config_error idle_collaborators "train.h5ad" "test.h5ad" output
         1 1 1 10 8 1 4 (py.fresh counting_generator) five_columns [] 5
         eq_refl eq_refl eq_refl (ltac:(lia) : (5 < 10)%nat)) as H.
  rewrite (main_propagates idle_collaborators _ _ _ H).
  split; reflexivity.
Qed.

(** ** The networks: ranges and shapes *)

Lemma columns_map_m (f : R -> R) (n : nat) (t : mat) :
  columns n t -> columns n (map_m f t).
Proof.
  unfold columns, map_m. intros H.
  apply Forall_map. eapply Forall_impl; [| exact H].
  intros row Hrow. cbn beta. now rewrite length_map.
Qed.

Lemma linear_columns (L : torch.Linear) (n : nat) (t : mat) :
  out_features L n -> columns n (torch.linear L t).
Proof.
  intros [Hw Hb]. unfold columns, torch.linear.
  apply Forall_map, Forall_forall. intros row _.
  rewrite zip_with_length, length_map, Hw, Hb. apply Nat.min_id.
Qed.

(** X1.  Whatever the weights and the input, every entry of the second
    output of the encoder network is strictly positive. *)
Theorem EncoderNN_sigma_positive (self : EncoderNN.t) (x : batch) :
  Forall (Forall (fun s => 0 < s)) (snd (EncoderNN.forward self x)).
Proof.
  unfold EncoderNN.forward. cbn [snd]. unfold torch.exp.
  apply Forall_map_m. intros v. apply exp_pos.
Qed.

Lemma dot_zero_weights (w row : vec) :
  Forall (fun c => c = 0) w -> torch.dot w row = 0.
Proof.
  unfold torch.dot, torch.vsum. intros H. revert row.
  induction H as [|c w Hc _ IH]; intros [|r row]; simpl; try reflexivity.
  rewrite IH, Hc. lra.
Qed.

Lemma zero_layer_output (L : torch.Linear) (t : mat) :
  zero_layer L -> Forall (Forall (fun v => v = 0)) (torch.linear L t).
Proof.
  intros [Hw Hb]. unfold torch.linear.
  apply Forall_map, Forall_forall. intros row _.
  revert Hb. generalize (torch.bias L) as b.
  induction Hw as [|w W Hw0 _ IH]; intros b Hb; [constructor |].
  destruct Hb as [|b0 b Hb0 Hb]; [constructor |].
  simpl. constructor.
  - rewrite (dot_zero_weights w row Hw0), Hb0. lra.
  - now apply IH.
Qed.

(** X4.  Every entry of the reconstruction mean lies strictly between 0
    and 1, whatever the weights and the latent sample. *)
Theorem DecoderNN_forward_range (self : DecoderNN.t) (z : mat) :
  Forall (Forall (fun v => 0 < v < 1)) (DecoderNN.forward self z).
Proof.
  unfold DecoderNN.forward, torch.sigmoid.
  apply Forall_map_m. intros v.
  pose proof (exp_pos (- v)) as He.
  assert (Hd : 0 < 1 + Rtrigo_def.exp (- v)) by lra.
  split.
  - apply Rdiv_lt_0_compat; lra.
  - apply (Rmult_lt_reg_r (1 + Rtrigo_def.exp (- v))); [exact Hd |].
    unfold Rdiv. rewrite Rmult_assoc, Rinv_l by lra. lra.
Qed.

(** X5.  When the output layer has [input_dim] outputs, the
    reconstruction mean has one row per latent sample and [input_dim]
    columns. *)
Theorem DecoderNN_forward_shape (self : DecoderNN.t) (z : mat)
  (input_dim : nat) :
  out_features (DecoderNN.linear2 self) input_dim ->
  length (DecoderNN.forward self z) = length z
  /\ columns input_dim (DecoderNN.forward self z).
Proof.
  intros H. unfold DecoderNN.forward, torch.sigmoid, torch.relu. split.
  - now rewrite !map_m_length, !linear_length, map_m_length, linear_length.
  - now apply columns_map_m, linear_columns.
Qed.

Lemma DecoderNN_forward_shape_witness :
  out_features (DecoderNN.linear2 zero_decoder) 1
  /\ length (DecoderNN.forward zero_decoder [[0]; [1]]) = length [[0]; [1]]
  /\ columns 1 (DecoderNN.forward zero_decoder [[0]; [1]]).
Proof.
  assert (H : out_features (DecoderNN.linear2 zero_decoder) 1)
    by (split; reflexivity).
  split; [exact H |].
  exact (DecoderNN_forward_shape zero_decoder [[0]; [1]] 1 H).
Defined.

(** ** Sampling: shapes and the generator *)

Lemma numel_cons (row : vec) (t : mat) :
  numel (row :: t) = (length row + numel t)%nat.
Proof. unfold numel. simpl. apply length_app. Qed.

Lemma standard_normal_like_columns (n : nat) (t : mat) (g : torch.generator) :
  columns n t -> columns n (fst (torch.standard_normal_like t g)).
Proof.
  intros H. revert g. induction H as [|row t Hrow _ IH]; intros g.
  - constructor.
  - simpl. unfold torch.bind, torch.ret, torch.randn.
    specialize (IH {| torch.draws := torch.draws g; torch.seed := torch.seed g;
                      torch.offset := (torch.offset g + length row)%nat |}).
    destruct (torch.standard_normal_like t _) as [es g']. simpl in *.
    constructor; [| exact IH].
    now rewrite length_map, length_seq.
Qed.

Lemma zip_m_columns (f : R -> R -> R) (n : nat) (a b : mat) :
  columns n a -> columns n b -> columns n (zip_m f a b).
Proof.
  unfold columns, zip_m. intros Ha. revert b.
  induction Ha as [|r a Hr _ IH]; intros b Hb; [constructor |].
  destruct Hb as [|s b Hs Hb]; [constructor |].
  simpl. constructor; [| now apply IH].
  rewrite zip_with_length, Hr, Hs. apply Nat.min_id.
Qed.

(** ** Log-densities *)

Lemma zip_with3_ext_Forall {A B C D : Type} (P : C -> Prop)
  (f g : A -> B -> C -> D) (a : list A) (b : list B) (c : list C) :
  Forall P c ->
  (forall x y z, P z -> f x y z = g x y z) ->
  zip_with3 f a b c = zip_with3 g a b c.
Proof.
  intros Hc Hfg. revert a b.
  induction Hc as [|z c Hz _ IH]; intros [|x a] [|y b]; simpl; auto.
  now rewrite Hfg, IH.
Qed.

(** X8.  For positive standard deviations, [EncoderGaussian.log_prob]
    is, example by example, the sum over the latent coordinates of the
    normal log-density of mean [mu] and variance [std^2] at [z]. *)
Theorem EncoderGaussian_log_prob_density (mu std z : mat) :
  Forall (Forall (fun s => 0 < s)) std ->
  EncoderGaussian.log_prob mu std z
  = zip_with3
      (fun z_i mu_i std_i =>
         torch.vsum
           (zip_with3 (fun v m s => normal_log_density m (s ^ 2) v) z_i mu_i std_i))
      z mu std.
Proof.
  intros Hstd. unfold EncoderGaussian.log_prob, torch.sum_dim1.
  rewrite Normal_log_prob_pointwise. cbn [torch.Normal.loc torch.Normal.scale].
  unfold zip_m3. rewrite map_zip_with3.
  apply (zip_with3_ext_Forall (Forall (fun s => 0 < s))); [exact Hstd |].
  intros z_i mu_i std_i Hi. f_equal.
  apply (zip_with3_ext_Forall (fun s => 0 < s)); [exact Hi |].
  intros v m s Hs. now apply log_prob_term_density.
Qed.

Lemma EncoderGaussian_log_prob_density_witness :
  Forall (Forall (fun s => 0 < s)) [[1; 2]]
  /\ EncoderGaussian.log_prob [[0; 1]] [[1; 2]] [[3; 4]]
     = zip_with3
         (fun z_i mu_i std_i =>
            torch.vsum
              (zip_with3 (fun v m s => normal_log_density m (s ^ 2) v) z_i mu_i std_i))
         [[3; 4]] [[0; 1]] [[1; 2]].
Proof.
  assert (H : Forall (Forall (fun s => 0 < s)) [[1; 2]]).
  { repeat constructor; lra. }
  split; [exact H |].
  exact (EncoderGaussian_log_prob_density [[0; 1]] [[1; 2]] [[3; 4]] H).
Defined.

Lemma exp_double (a : R) : Rtrigo_def.exp a ^ 2 = Rtrigo_def.exp (2 * a).
Proof.
  replace (2 * a) with (a + a) by lra. rewrite exp_plus. simpl. lra.
Qed.

(** X9.  For every decoder, latent sample and input, the score the
    decoder returns for an example is the Gaussian log-likelihood of its
    features around the decoder's mean with variance
    [exp(2 * log_variance)]. *)
Theorem DecoderGaussian_forward_density (self : DecoderGaussian.t) (z : mat)
  (x : batch) :
  let '(out, recon_loss) := DecoderGaussian.forward self z x in
  out = DecoderNN.forward (DecoderGaussian.decoder self) z
  /\ recon_loss
     = zip_with
         (gaussian_ll (Rtrigo_def.exp (2 * DecoderGaussian.log_variance self)))
         out (torch.flatten x).
Proof.
  unfold DecoderGaussian.forward. split; [reflexivity |].
  now rewrite log_prob_xz_density, exp_double.
Qed.

(** X10.  A decoder as its constructor leaves it scores with variance 1. *)
Theorem DecoderGaussian_init_unit_variance (decoder : DecoderNN.t) (z : mat)
  (x : batch) :
  snd (DecoderGaussian.forward (DecoderGaussian.init decoder) z x)
  = zip_with (gaussian_ll 1) (DecoderNN.forward decoder z) (torch.flatten x).
Proof.
  unfold DecoderGaussian.forward, DecoderGaussian.init.
  cbn [snd DecoderGaussian.decoder DecoderGaussian.log_variance].
  rewrite log_prob_xz_density, exp_0.
  replace (1 ^ 2) with 1 by lra. reflexivity.
Qed.

Lemma vsum_zip_diag (F : R -> R -> R) (c : R) (row : vec) :
  (forall v, F v v = c) ->
  torch.vsum (zip_with F row row) = INR (length row) * c.
Proof.
  intros HF. unfold torch.vsum.
  induction row as [|v row IH]; [simpl; lra |].
  change (length (v :: row)) with (S (length row)). rewrite S_INR.
  simpl. rewrite IH, HF. lra.
Qed.

Lemma log_prob_term_diag (v s c : R) :
  - (v - v) ^ 2 / (2 * s ^ 2) - ln s - c = - (ln s + c).
Proof.
  replace (v - v) with 0 by lra.
  unfold Rdiv. rewrite pow_ne_zero by discriminate.
  rewrite Ropp_0, Rmult_0_l. lra.
Qed.

(** X11.  The score of an example of [D] features never exceeds
    [- D * (log_variance + log(sqrt(2 pi)))], and the flattened input
    taken as the mean reaches that value. *)
Theorem log_prob_xz_upper_bound (mean : mat) (log_variance : R) (x : batch) :
  same_shape mean (torch.flatten x) ->
  Forall2
    (fun score x_i =>
       score <= - (INR (length x_i) * (log_variance + ln (sqrt (2 * PI)))))
    (DecoderGaussian.log_prob_xz mean log_variance x) (torch.flatten x)
  /\ DecoderGaussian.log_prob_xz (torch.flatten x) log_variance x
     = map (fun x_i => - (INR (length x_i) * (log_variance + ln (sqrt (2 * PI)))))
         (torch.flatten x).
Proof.
  rewrite !log_prob_xz_pointwise.
  generalize (torch.flatten x) as X. intros X H. unfold zip_m.
  assert (Hdiag : forall row : vec,
    torch.vsum
      (zip_with
         (fun v m =>
            - (v - m) ^ 2 / (2 * Rtrigo_def.exp log_variance ^ 2)
            - ln (Rtrigo_def.exp log_variance) - ln (sqrt (2 * PI))) row row)
    = - (INR (length row) * (log_variance + ln (sqrt (2 * PI))))).
  { intros row.
    rewrite (vsum_zip_diag _ (- (log_variance + ln (sqrt (2 * PI))))).
    - lra.
    - intros v. rewrite log_prob_term_diag, ln_exp. reflexivity. }
  split.
  - induction H as [|mean_i x_i mean X Hlen _ IH]; simpl; constructor.
    + rewrite <- Hdiag. apply row_score_le; [exact Hlen |].
      intros v m. apply log_prob_term_le, exp_pos.
    + exact IH.
  - clear H. induction X as [|x_i X IH]; [reflexivity |].
    cbn [zip_with map]. f_equal; [apply Hdiag | exact IH].
Qed.

Lemma log_prob_xz_upper_bound_witness :
  same_shape [[1; 2]] (torch.flatten [[Leaf 0; Leaf 3]])
  /\ (Forall2
        (fun score x_i => score <= - (INR (length x_i) * (0 + ln (sqrt (2 * PI)))))
        (DecoderGaussian.log_prob_xz [[1; 2]] 0 [[Leaf 0; Leaf 3]])
        (torch.flatten [[Leaf 0; Leaf 3]])
      /\ DecoderGaussian.log_prob_xz (torch.flatten [[Leaf 0; Leaf 3]]) 0
           [[Leaf 0; Leaf 3]]
         = map (fun x_i => - (INR (length x_i) * (0 + ln (sqrt (2 * PI)))))
             (torch.flatten [[Leaf 0; Leaf 3]])).
Proof.
  assert (H : same_shape [[1; 2]] (torch.flatten [[Leaf 0; Leaf 3]])).
  { repeat constructor. }
  split; [exact H |].
  exact (log_prob_xz_upper_bound [[1; 2]] 0 [[Leaf 0; Leaf 3]] H).
Defined.

(** ** The loss and its parts *)

Lemma forward_recon_nonempty (self : VariationalAutoencoder.t) (x : batch)
  (g : torch.generator) :
  x <> [] ->
  snd (DecoderGaussian.forward (VariationalAutoencoder.decoder self)
         (fst (fst (fst (EncoderGaussian.forward
                           (VariationalAutoencoder.encoder self) x g)))) x)
  <> [].
Proof.
  intros Hx E.
  pose proof (DecoderGaussian_forward_length
                (VariationalAutoencoder.decoder self) _ x
                (EncoderGaussian_forward_length
                   (VariationalAutoencoder.encoder self) x g)) as Hr.
  rewrite E in Hr. simpl in Hr.
  destruct x; [congruence | discriminate].
Qed.

(** X12.  The three numbers a forward pass reports fit together: on a
    batch with at least one example, the loss is [beta] times the
    reported KL minus the reported reconstruction log-likelihood. *)
Theorem forward_reports_consistent (self : VariationalAutoencoder.t)
  (x : batch) (g : torch.generator) :
  x <> [] ->
  let '(elbo, kl, recon_ll, _) := fst (VariationalAutoencoder.forward self x g) in
  elbo = kl * VariationalAutoencoder.beta self - recon_ll.
Proof.
  intros Hx.
  rewrite VariationalAutoencoder_forward_unfold. cbv zeta. cbn [fst].
  rewrite mean_singleton.
  apply mean_broadcast_sub. now apply forward_recon_nonempty.
Qed.

Lemma forward_reports_consistent_witness :
  one_feature <> []
  /\ (let '(elbo, kl, recon_ll, _) :=
        fst (VariationalAutoencoder.forward zero_vae one_feature counting_generator) in
      elbo = kl * VariationalAutoencoder.beta zero_vae - recon_ll).
Proof.
  assert (H : one_feature <> []) by discriminate.
  split; [exact H |].
  exact (forward_reports_consistent zero_vae one_feature counting_generator H).
Defined.

(** A bound under every term gives a bound under the sum. *)
Lemma kl_batch_lower (P : R -> Prop) (c : R) (mu sigma : mat) :
  (forall m s, P s -> c <= kl_term m s) ->
  same_shape mu sigma ->
  Forall (Forall P) sigma ->
  INR (numel mu) * c <= kl_batch mu sigma.
Proof.
  intros Hc Hshape. unfold kl_batch, torch.vsum.
  induction Hshape as [|mu_i sigma_i mu sigma Hlen _ IH]; intros HP.
  - unfold numel. simpl. lra.
  - inversion HP as [|? ? Hi HP']; subst.
    specialize (IH HP'). rewrite numel_cons, plus_INR. simpl.
    assert (Hrow : INR (length mu_i) * c <= kl_example mu_i sigma_i).
    { clear IH HP HP'. unfold kl_example, torch.vsum.
      revert mu_i Hlen.
      induction Hi as [|s sigma_i Hs _ IHi]; intros [|m mu_i] Hlen;
        simpl in *; try discriminate; try lra.
      specialize (IHi mu_i ltac:(lia)). specialize (Hc m s Hs).
      destruct (length mu_i); simpl in *; lra. }
    lra.
Qed.

Lemma kl_term_lower (mu sigma : R) :
  0 < sigma -> ln 2 / 2 <= kl_term mu sigma.
Proof.
  intros Hs. unfold kl_term.
  assert (H2 : 0 < 2 * (sigma * sigma)) by nra.
  pose proof (ln_le_pred (2 * (sigma * sigma)) H2) as H.
  rewrite ln_mult in H by nra.
  rewrite ln_mult in H by assumption.
  nra.
Qed.

(** X13.  For positive [sigma] of the shape of [mu], the value of
    [kl_divergence] is at least [log(2)/2] per entry: it stays away from
    zero on every batch that is not empty. *)
Theorem kl_divergence_lower_bound (mu sigma : mat) :
  same_shape mu sigma ->
  Forall (Forall (fun s => 0 < s)) sigma ->
  INR (numel mu) * (ln 2 / 2) <= VariationalAutoencoder.kl_divergence mu sigma.
Proof.
  intros Hshape Hpos. rewrite kl_divergence_pointwise.
  apply (kl_batch_lower (fun s => 0 < s)); try assumption.
  intros m s. apply kl_term_lower.
Qed.

Lemma kl_divergence_lower_bound_witness :
  same_shape [[0; 1]; [2; 3]] [[1; 2]; [3; 4]]
  /\ Forall (Forall (fun s => 0 < s)) [[1; 2]; [3; 4]]
  /\ INR (numel [[0; 1]; [2; 3]]) * (ln 2 / 2)
     <= VariationalAutoencoder.kl_divergence [[0; 1]; [2; 3]] [[1; 2]; [3; 4]].
Proof.
  assert (H1 : same_shape [[0; 1]; [2; 3]] [[1; 2]; [3; 4]]).
  { repeat constructor. }
  assert (H2 : Forall (Forall (fun s => 0 < s)) [[1; 2]; [3; 4]]).
  { repeat constructor; lra. }
  split; [exact H1 | split; [exact H2 |]].
  exact (kl_divergence_lower_bound [[0; 1]; [2; 3]] [[1; 2]; [3; 4]] H1 H2).
Defined.





(** ** A run that trains *)

Section Training.

Variable C : collaborators.

(** What the epochs [ts] do to the lists, to [z] and to the process. *)
Lemma epoch_loop_effect (epochs : nat) (train_dataloader test_dataloader : list batch)
  (device : string) (ts : list nat) :
  forall (vae : VariationalAutoencoder.t) (optimizer : optim C)
         (h : history) (z : option mat) (w : py.world),
    py.sys_stdout w = py.TextIO py.fd_stdout ->
    exists h' z' w',
      epoch_loop C ts epochs train_dataloader test_dataloader device
        vae optimizer h z w = (py.Ok (h', z'), w')
      /\ (length (train_elbo_list h') = length (train_elbo_list h) + length ts
          /\ length (train_Dkl_list h') = length (train_Dkl_list h) + length ts
          /\ length (train_recon_loss_list h')
             = length (train_recon_loss_list h) + length ts
          /\ length (test_elbo_list h') = length (test_elbo_list h) + length ts
          /\ length (test_Dkl_list h') = length (test_Dkl_list h) + length ts
          /\ length (test_recon_loss_list h')
             = length (test_recon_loss_list h) + length ts)%nat
      /\ (In (epochs - 1)%nat ts \/ z <> None -> z' <> None)
      /\ py.sys_stdout w' = py.sys_stdout w
      /\ py.sys_stderr w' = py.sys_stderr w
      /\ py.err w' = py.err w
      /\ py.out w' = py.out w ++ map epoch_banner ts
      /\ py.calls w' = py.calls w ++ epoch_calls epochs ts.
Proof.
  induction ts as [|t ts IH]; intros vae optimizer h z w Hout.
  - exists h, z, w. cbn [epoch_loop py.ret length map epoch_calls flat_map].
    rewrite !Nat.add_0_r, !app_nil_r.
    repeat split; try reflexivity.
    intros [[] | Hz]; exact Hz.
  - cbn [epoch_loop]. unfold py.bind at 1. unfold py.print at 1. rewrite Hout.
    unfold py.bind at 1. unfold py.log_call at 1.
    unfold py.bind at 1. unfold py.lift at 1.
    cbn [py.write py.sys_stdout py.sys_stderr py.out py.err py.calls py.rng].
    destruct (train C vae train_dataloader optimizer device (py.rng w))
      as [[[vae1 optimizer1] [[elbo_train Dkl_train] recon_loss_train]] g1].
    unfold py.bind at 1. unfold py.log_call at 1.
    unfold py.bind at 1. unfold py.lift at 1.
    cbn [py.write py.sys_stdout py.sys_stderr py.out py.err py.calls py.rng].
    destruct (test C vae1 test_dataloader (t =? epochs - 1)%nat device g1)
      as [[[[elbo_test Dkl_test] recon_loss_test] z_test] g2].
    match goal with
    | |- context [epoch_loop C ts epochs _ _ _ ?v ?o ?h1 ?z1 ?w1] =>
        destruct (IH v o h1 z1 w1 Hout)
          as (h' & z' & w' & Hrun & Hlen & Hz & Hso & Hse & Herr & Hprint & Hcalls)
    end.
    exists h', z', w'. split; [exact Hrun |].
    cbn [train_elbo_list train_Dkl_list train_recon_loss_list
         test_elbo_list test_Dkl_list test_recon_loss_list
         py.sys_stdout py.sys_stderr py.out py.err py.calls] in *.
    rewrite !length_app in Hlen. cbn [length] in *.
    split; [| split; [| repeat split]].
    + lia.
    + intros [[Ht | Hin] | Hz0].
      * apply Hz. right. subst t. rewrite Nat.eqb_refl. discriminate.
      * apply Hz. now left.
      * apply Hz. right. destruct (t =? epochs - 1)%nat; [discriminate | exact Hz0].
    + now rewrite Hso.
    + exact Hse.
    + exact Herr.
    + rewrite Hprint, <- app_assoc. reflexivity.
    + rewrite Hcalls, <- !app_assoc. reflexivity.
Qed.

End Training.

Section TrainingRun.

Variable C : collaborators.
Variables (train_data test_data output : string).
Variables (beta learning_rate sample : R).
Variables (ldim hdim epochs batch_size : nat).

Let device : string := if cuda_is_available C then "cuda"%string else "cpu"%string.

(** A run whose dimensions pass the check, up to the [return]. *)
Lemma run_trains (w : py.world) (i : batch) (rest : list batch) :
  py.sys_stdout w = py.TextIO py.fd_stdout ->
  create_dataloader C train_data batch_size sample = i :: rest ->
  (ldim <= torch.shape1 i)%nat ->
  exists (h : history) (z : option mat) (w' : py.world),
    run_VAE_training C train_data test_data beta learning_rate
      ldim hdim epochs batch_size sample output w
    = (match z with
       | Some z => py.Ok (h, z)
       | None => py.Raise (py.UnboundLocalError "z")
       end, w')
    /\ (length (train_elbo_list h) = epochs
        /\ length (train_Dkl_list h) = epochs
        /\ length (train_recon_loss_list h) = epochs
        /\ length (test_elbo_list h) = epochs
        /\ length (test_Dkl_list h) = epochs
        /\ length (test_recon_loss_list h) = epochs)
    /\ ((1 <= epochs)%nat -> z <> None)
    /\ (epochs = 0%nat -> z = None)
    /\ py.sys_stderr w' = py.sys_stderr w
    /\ py.err w' = py.err w
    /\ py.out w'
       = py.out w
         ++ [(("Using " ++ device ++ " device") ++ py.newline)%string]
         ++ map epoch_banner (seq 0 epochs)
         ++ [("Done!" ++ py.newline)%string]
    /\ py.calls w'
       = py.calls w
         ++ [py.create_dataloader_call train_data batch_size sample;
             py.create_dataloader_call test_data batch_size sample;
             py.construct_model (torch.shape1 i) ldim hdim]
         ++ epoch_calls epochs (seq 0 epochs)
         ++ [py.save_call (output ++ ".pt")%string].
Proof.
  intros Hout Hdl Hle.
  assert (Hltb : Nat.ltb (torch.shape1 i) ldim = false) by (apply Nat.ltb_ge; lia).
  unfold run_VAE_training.
  unfold py.bind at 1. unfold py.log_call at 1.
  unfold py.bind at 1. unfold py.log_call at 1.
  unfold py.bind at 1. unfold py.print at 1.
  cbn [py.sys_stdout py.sys_stderr py.out py.err py.calls py.rng].
  rewrite Hout, Hdl.
  unfold py.bind at 1. unfold first_n_cols. cbn [py.ret].
  unfold py.bind at 1. cbn [py.read_local py.ret].
  unfold py.bind at 1. rewrite Hltb. cbn [py.ret].
  unfold py.bind at 1. unfold py.log_call at 1.
  unfold py.bind at 1. unfold py.lift at 1.
  cbn [py.write py.sys_stdout py.sys_stderr py.out py.err py.calls py.rng].
  destruct (new_EncoderNN C (torch.shape1 i) ldim hdim (py.rng w)) as [encoder_nn g1].
  unfold py.bind at 1. unfold py.lift at 1.
  cbn [py.sys_stdout py.sys_stderr py.out py.err py.calls py.rng].
  destruct (new_DecoderNN C (torch.shape1 i) ldim hdim g1) as [decoder_nn g2].
  unfold py.bind at 1.
  match goal with
  | |- context [epoch_loop C _ epochs ?tdl ?sdl ?dev ?v ?o ?h1 ?z1 ?w1] =>
      destruct (epoch_loop_effect C epochs tdl sdl dev (seq 0 epochs) v o h1 z1 w1 eq_refl)
        as (h & z & w' & Hrun & Hlen & Hz & Hso & Hse & Herr & Hprint & Hcalls)
  end.
  rewrite Hrun.
  cbn [py.sys_stdout py.sys_stderr py.out py.err py.calls py.rng
       train_elbo_list train_Dkl_list train_recon_loss_list
       test_elbo_list test_Dkl_list test_recon_loss_list no_history length] in *.
  rewrite length_seq in Hlen.
  unfold py.bind at 1. unfold py.print at 1. rewrite Hso.
  unfold py.bind at 1. unfold py.log_call at 1.
  unfold py.bind at 1.
  cbn [py.write py.sys_stdout py.sys_stderr py.out py.err py.calls py.rng].
  exists h, z.
  eexists. split.
  - destruct z as [z |]; cbn [py.read_local py.ret py.raise]; reflexivity.
  - cbn [py.sys_stdout py.sys_stderr py.out py.err py.calls py.rng].
    split; [exact Hlen |]. split; [| split; [| split; [| split; [| split]]]].
    + intros He. apply Hz. left. apply in_seq. lia.
    + intros He. rewrite He in Hrun. cbn [seq epoch_loop] in Hrun.
      unfold py.ret in Hrun. now inversion Hrun.
    + exact Hse.
    + exact Herr.
    + rewrite Hprint, <- !app_assoc. reflexivity.
    + rewrite Hcalls, <- !app_assoc. reflexivity.
Qed.

End TrainingRun.



(** ** Runs that fail after the check, and the main module *)

(** X20.  When the train loader yields no batch, the run is not stopped
    by the check: reading [n_cols] raises [UnboundLocalError], before the
    model is built, and the process ends with status 1. *)
Theorem run_empty_loader (C : collaborators)
  (train_data test_data : string) (beta learning_rate : R)
  (ldim hdim epochs batch_size : nat) (sample : R) (output : string)
  (w : py.world) :
  create_dataloader C train_data batch_size sample = [] ->
  let (r, w') :=
    run_VAE_training C train_data test_data beta learning_rate
      ldim hdim epochs batch_size sample output w in
  r = py.Raise (py.UnboundLocalError "n_cols")
  /\ py.exit_status r = 1%Z
  /\ py.calls w'
     = py.calls w
       ++ [py.create_dataloader_call train_data batch_size sample;
           py.create_dataloader_call test_data batch_size sample].
Proof.
  intros Hdl.
  unfold run_VAE_training, py.bind, py.log_call, py.print, first_n_cols.
  cbn [py.sys_stdout py.sys_stderr py.out py.err py.calls py.rng].
  rewrite Hdl. cbn [py.ret py.read_local py.raise].
  destruct (py.sys_stdout w) as [| fd]; [| destruct fd];
    cbn [py.write py.calls py.exit_status];
    rewrite <- app_assoc; repeat split.
Qed.

Lemma run_empty_loader_witness :
  create_dataloader unfed_collaborators "train.h5ad" 4 1 = []
  /\ (let (r, w') :=
        run_VAE_training unfed_collaborators "train.h5ad" "test.h5ad" 1 1
          2 8 1 4 1 "vae" (py.fresh counting_generator) in
      r = py.Raise (py.UnboundLocalError "n_cols")
      /\ py.exit_status r = 1%Z
      /\ py.calls w'
         = py.calls (py.fresh counting_generator)
           ++ [py.create_dataloader_call "train.h5ad" 4 1;
               py.create_dataloader_call "test.h5ad" 4 1]).
Proof.
  assert (H : create_dataloader unfed_collaborators "train.h5ad" 4 1 = [])
    by reflexivity.
  split; [exact H |].
  exact (run_empty_loader unfed_collaborators "train.h5ad" "test.h5ad" 1 1
           2 8 1 4 1 "vae" (py.fresh counting_generator) H).
Defined.

(** X22.  Run as a script with a latent dimension above the number of
    columns, the process ends with exit status 0: the main module does
    not catch the [SystemExit], builds nothing and draws no plot. *)
Theorem main_config_error (C : collaborators) (w : py.world)
  (i : batch) (rest : list batch) :
  let a := parse_model_arguments C in
  py.sys_stdout w = py.TextIO py.fd_stdout ->
  create_dataloader C (arg_train_data a) (arg_batch_size a) (arg_sample a)
  = i :: rest ->
  (torch.shape1 i < arg_latent_dim a)%nat ->
  let (r, w') := main C w in
  r = py.Raise (py.SystemExit 0)
  /\ py.exit_status r = 0%Z
  /\ py.err w' = py.err w
  /\ py.calls w'
     = py.calls w
       ++ [py.create_dataloader_call (arg_train_data a) (arg_batch_size a)
             (arg_sample a);
           py.create_dataloader_call (arg_test_data a) (arg_batch_size a)
             (arg_sample a)].
Proof.
  cbv zeta. intros Hout Hdl Hlt.
  pose proof
    (fun output =>
       run_config_error C _ (arg_test_data (parse_model_arguments C)) output
         (arg_beta (parse_model_arguments C))
         (arg_learning_rate (parse_model_arguments C)) _ _
         (arg_hidden_dim (parse_model_arguments C))
         (arg_epochs (parse_model_arguments C)) _ w i rest _ Hout Hdl eq_refl Hlt)
    as H.
  rewrite (main_propagates C _ _ _ H).
  cbn [py.exit_status py.err py.calls].
  rewrite <- app_assoc. repeat split.
Qed.

Lemma main_config_error_witness :
  let a := parse_model_arguments idle_collaborators in
  py.sys_stdout (py.fresh counting_generator) = py.TextIO py.fd_stdout
  /\ create_dataloader idle_collaborators (arg_train_data a) (arg_batch_size a)
       (arg_sample a) = [five_columns]
  /\ (torch.shape1 five_columns < arg_latent_dim a)%nat
  /\ (let (r, w') := main idle_collaborators (py.fresh counting_generator) in
      r = py.Raise (py.SystemExit 0)
      /\ py.exit_status r = 0%Z
      /\ py.err w' = py.err (py.fresh counting_generator)
      /\ py.calls w'
         = py.calls (py.fresh counting_generator)
           ++ [py.create_dataloader_call (arg_train_data a) (arg_batch_size a)
                 (arg_sample a);
               py.create_dataloader_call (arg_test_data a) (arg_batch_size a)
                 (arg_sample a)]).
Proof.
  cbv zeta.
  assert (H1 : py.sys_stdout (py.fresh counting_generator) = py.TextIO py.fd_stdout)
    by reflexivity.
  assert (H2 : create_dataloader idle_collaborators
                 (arg_train_data (parse_model_arguments idle_collaborators))
                 (arg_batch_size (parse_model_arguments idle_collaborators))
                 (arg_sample (parse_model_arguments idle_collaborators))
               = [five_columns]) by reflexivity.
  assert (H3 : (torch.shape1 five_columns
                < arg_latent_dim (parse_model_arguments idle_collaborators))%nat)
    by (simpl; lia).
  repeat (split; [assumption |]).
  exact (main_config_error idle_collaborators (py.fresh counting_generator)
           five_columns [] H1 H2 H3).
Defined.


(** ** Well-shaped networks: the shapes that come out *)

Lemma small_encoder_shaped : EncoderNN_shaped small_encoder 2 2 3.
Proof. repeat split; repeat constructor. Qed.

Lemma small_decoder_shaped : DecoderNN_shaped small_decoder 2 2 3.
Proof. repeat split; repeat constructor. Qed.

Lemma two_examples_columns : columns 2 (torch.flatten two_examples).
Proof. repeat constructor. Qed.

(** X2.  For an encoder network built for [input_dim] features,
    [hidden_dim] hidden units and [latent_dim] latent coordinates, on a
    batch whose examples have [input_dim] features, [mu] and [sigma]
    have one row per example and [latent_dim] columns each. *)
Theorem EncoderNN_forward_shape (self : EncoderNN.t) (x : batch)
  (input_dim latent_dim hidden_dim : nat) :
  EncoderNN_shaped self input_dim latent_dim hidden_dim ->
  columns input_dim (torch.flatten x) ->
  let '(mu, sigma) := EncoderNN.forward self x in
  length mu = length x /\ columns latent_dim mu
  /\ length sigma = length x /\ columns latent_dim sigma.
Proof.
  intros (_ & [_ H2] & [_ H3]) _.
  destruct (EncoderNN_forward_length self x) as [Hmu Hsigma].
  unfold EncoderNN.forward in *. cbn [fst snd] in *.
  repeat split; try assumption.
  - now apply linear_columns.
  - unfold torch.exp. now apply columns_map_m, linear_columns.
Qed.

Lemma EncoderNN_forward_shape_witness :
  EncoderNN_shaped small_encoder 2 2 3
  /\ columns 2 (torch.flatten two_examples)
  /\ (let '(mu, sigma) := EncoderNN.forward small_encoder two_examples in
      length mu = length two_examples /\ columns 2 mu
      /\ length sigma = length two_examples /\ columns 2 sigma).
Proof.
  split; [exact small_encoder_shaped | split; [exact two_examples_columns |]].
  exact (EncoderNN_forward_shape small_encoder two_examples 2 2 3
           small_encoder_shaped two_examples_columns).
Defined.

(** X3.  In a well-shaped encoder network whose second head has every
    weight and bias zero, [sigma] is 1 in every entry, on every batch of
    the width the network was built for. *)
Theorem EncoderNN_zero_head_sigma_one (self : EncoderNN.t) (x : batch)
  (input_dim latent_dim hidden_dim : nat) :
  EncoderNN_shaped self input_dim latent_dim hidden_dim ->
  columns input_dim (torch.flatten x) ->
  zero_layer (EncoderNN.linear3 self) ->
  let '(_, sigma) := EncoderNN.forward self x in
  length sigma = length x
  /\ columns latent_dim sigma
  /\ Forall (Forall (fun s => s = 1)) sigma.
Proof.
  intros (_ & _ & [_ H3]) _ H.
  destruct (EncoderNN_forward_length self x) as [_ Hsigma].
  unfold EncoderNN.forward in *. cbn [snd] in *.
  split; [exact Hsigma | split].
  - unfold torch.exp. now apply columns_map_m, linear_columns.
  - unfold torch.exp, map_m. apply Forall_map.
    eapply Forall_impl; [| exact (zero_layer_output _ _ H)].
    intros row Hrow. cbn beta. apply Forall_map.
    eapply Forall_impl; [| exact Hrow].
    intros v ->. apply exp_0.
Qed.

Lemma EncoderNN_zero_head_sigma_one_witness :
  EncoderNN_shaped small_encoder 2 2 3
  /\ columns 2 (torch.flatten two_examples)
  /\ zero_layer (EncoderNN.linear3 small_encoder)
  /\ (let '(_, sigma) := EncoderNN.forward small_encoder two_examples in
      length sigma = length two_examples
      /\ columns 2 sigma
      /\ Forall (Forall (fun s => s = 1)) sigma).
Proof.
  assert (H : zero_layer (EncoderNN.linear3 small_encoder)).
  { split; repeat constructor. }
  split; [exact small_encoder_shaped |
          split; [exact two_examples_columns | split; [exact H |]]].
  exact (EncoderNN_zero_head_sigma_one small_encoder two_examples 2 2 3
           small_encoder_shaped two_examples_columns H).
Defined.

(** X7.  For a model built as [run_VAE_training] builds it, encoder and
    decoder for [input_dim] features, [hidden_dim] hidden units and
    [latent_dim] latent coordinates, on a batch whose examples have
    [input_dim] features, the latent sample a forward pass returns has
    one row per example and [latent_dim] columns. *)
Theorem forward_z_shape (self : VariationalAutoencoder.t) (x : batch)
  (g : torch.generator) (input_dim latent_dim hidden_dim : nat) :
  EncoderNN_shaped
    (EncoderGaussian.encoder (VariationalAutoencoder.encoder self))
    input_dim latent_dim hidden_dim ->
  DecoderNN_shaped
    (DecoderGaussian.decoder (VariationalAutoencoder.decoder self))
    input_dim latent_dim hidden_dim ->
  columns input_dim (torch.flatten x) ->
  let '(_, _, _, z) := fst (VariationalAutoencoder.forward self x g) in
  length z = length x /\ columns latent_dim z.
Proof.
  intros (_ & [_ H2] & [_ H3]) _ _.
  rewrite VariationalAutoencoder_forward_unfold. cbv zeta. cbn [fst].
  split.
  - apply EncoderGaussian_forward_length.
  - rewrite EncoderGaussian_forward_unfold. cbv zeta. cbn [fst snd].
    set (enc := EncoderGaussian.encoder (VariationalAutoencoder.encoder self)) in *.
    assert (Hmu : columns latent_dim (fst (EncoderNN.forward enc x))).
    { unfold EncoderNN.forward. cbn [fst]. now apply linear_columns. }
    assert (Hlv : columns latent_dim (snd (EncoderNN.forward enc x))).
    { unfold EncoderNN.forward. cbn [snd]. unfold torch.exp.
      now apply columns_map_m, linear_columns. }
    unfold torch.add, torch.mul, torch.exp, torch.div_scalar.
    apply zip_m_columns; [exact Hmu |].
    apply zip_m_columns.
    + now apply standard_normal_like_columns.
    + now apply columns_map_m, columns_map_m.
Qed.

Lemma forward_z_shape_witness :
  EncoderNN_shaped
    (EncoderGaussian.encoder (VariationalAutoencoder.encoder small_vae)) 2 2 3
  /\ DecoderNN_shaped
       (DecoderGaussian.decoder (VariationalAutoencoder.decoder small_vae)) 2 2 3
  /\ columns 2 (torch.flatten two_examples)
  /\ (let '(_, _, _, z) :=
        fst (VariationalAutoencoder.forward small_vae two_examples counting_generator) in
      length z = length two_examples /\ columns 2 z).
Proof.
  split; [exact small_encoder_shaped |
          split; [exact small_decoder_shaped | split; [exact two_examples_columns |]]].
  exact (forward_z_shape small_vae two_examples counting_generator 2 2 3
           small_encoder_shaped small_decoder_shaped two_examples_columns).
Defined.

(** ** What a run that returns has done *)

Section Returned.

Variable C : collaborators.
Variables (train_data test_data output : string).
Variables (beta learning_rate sample : R).
Variables (ldim hdim epochs batch_size : nat).

Lemma run_without_batches (w : py.world) :
  create_dataloader C train_data batch_size sample = [] ->
  fst (run_VAE_training C train_data test_data beta learning_rate
         ldim hdim epochs batch_size sample output w)
  = py.Raise (py.UnboundLocalError "n_cols").
Proof.
  intros Hdl.
  unfold run_VAE_training, py.bind, py.log_call, py.print, first_n_cols.
  cbn [py.sys_stdout py.sys_stderr py.out py.err py.calls py.rng].
  rewrite Hdl. cbn [py.ret py.read_local py.raise].
  now destruct (py.sys_stdout w).
Qed.

(** A run returns only past the check and after at least one epoch. *)
Lemma run_returned (w : py.world) (h : history) (z : mat) :
  py.sys_stdout w = py.TextIO py.fd_stdout ->
  fst (run_VAE_training C train_data test_data beta learning_rate
         ldim hdim epochs batch_size sample output w)
  = py.Ok (h, z) ->
  exists (i : batch) (rest : list batch),
    create_dataloader C train_data batch_size sample = i :: rest
    /\ (ldim <= torch.shape1 i)%nat
    /\ (1 <= epochs)%nat
    /\ (length (train_elbo_list h) = epochs
        /\ length (train_Dkl_list h) = epochs
        /\ length (train_recon_loss_list h) = epochs
        /\ length (test_elbo_list h) = epochs
        /\ length (test_Dkl_list h) = epochs
        /\ length (test_recon_loss_list h) = epochs)
    /\ py.calls
         (snd (run_VAE_training C train_data test_data beta learning_rate
                 ldim hdim epochs batch_size sample output w))
       = py.calls w
         ++ [py.create_dataloader_call train_data batch_size sample;
             py.create_dataloader_call test_data batch_size sample;
             py.construct_model (torch.shape1 i) ldim hdim]
         ++ epoch_calls epochs (seq 0 epochs)
         ++ [py.save_call (output ++ ".pt")%string].
Proof.
  intros Hout Hok.
  destruct (create_dataloader C train_data batch_size sample) as [|i rest] eqn:Hdl.
  - rewrite (run_without_batches w Hdl) in Hok. discriminate.
  - exists i, rest. split; [reflexivity |].
    destruct (Nat.lt_ge_cases (torch.shape1 i) ldim) as [Hlt | Hle].
    + rewrite (run_config_error C train_data test_data output beta learning_rate
                 sample ldim hdim epochs batch_size w i rest (torch.shape1 i)
                 Hout Hdl eq_refl Hlt) in Hok.
      discriminate.
    + destruct (run_trains C train_data test_data output beta learning_rate sample
                  ldim hdim epochs batch_size w i rest Hout Hdl Hle)
        as (h' & z' & w' & Hrun & Hlen & _ & Hz & _ & _ & _ & Hcalls).
      rewrite Hrun in Hok |- *. cbn [fst snd] in *.
      destruct z' as [z' |]; [| discriminate].
      injection Hok as -> ->.
      split; [exact Hle | split; [| split; [exact Hlen | exact Hcalls]]].
      destruct epochs as [| n]; [| lia].
      specialize (Hz eq_refl). discriminate.
Qed.

End Returned.

(** X17.  Whenever [run_VAE_training] returns, every one of the six
    lists it returns has exactly [epochs] entries; and it returns only
    if the train loader yielded a first batch, [ldim] does not exceed the
    number of columns of that batch, and [epochs] is at least 1. *)
Theorem run_returns_one_entry_per_epoch (C : collaborators)
  (train_data test_data : string) (beta learning_rate : R)
  (ldim hdim epochs batch_size : nat) (sample : R) (output : string)
  (w : py.world) (h : history) (z : mat) :
  py.sys_stdout w = py.TextIO py.fd_stdout ->
  fst (run_VAE_training C train_data test_data beta learning_rate
         ldim hdim epochs batch_size sample output w)
  = py.Ok (h, z) ->
  (length (train_elbo_list h) = epochs
   /\ length (train_Dkl_list h) = epochs
   /\ length (train_recon_loss_list h) = epochs
   /\ length (test_elbo_list h) = epochs
   /\ length (test_Dkl_list h) = epochs
   /\ length (test_recon_loss_list h) = epochs)
  /\ (1 <= epochs)%nat
  /\ exists (i : batch) (rest : list batch),
       create_dataloader C train_data batch_size sample = i :: rest
       /\ (ldim <= torch.shape1 i)%nat.
Proof.
  intros Hout Hok.
  destruct (run_returned C train_data test_data output beta learning_rate sample
              ldim hdim epochs batch_size w h z Hout Hok)
    as (i & rest & Hdl & Hle & He & Hlen & _).
  split; [exact Hlen | split; [exact He |]].
  exists i, rest. split; assumption.
Qed.

Lemma run_returns_one_entry_per_epoch_witness :
  py.sys_stdout (py.fresh counting_generator) = py.TextIO py.fd_stdout
  /\ fst (run_VAE_training idle_collaborators "train.h5ad" "test.h5ad" 1 1
            5 8 2 4 1 "vae" (py.fresh counting_generator))
     = py.Ok (idle_history, [])
  /\ ((length (train_elbo_list idle_history) = 2%nat
       /\ length (train_Dkl_list idle_history) = 2%nat
       /\ length (train_recon_loss_list idle_history) = 2%nat
       /\ length (test_elbo_list idle_history) = 2%nat
       /\ length (test_Dkl_list idle_history) = 2%nat
       /\ length (test_recon_loss_list idle_history) = 2%nat)
      /\ (1 <= 2)%nat
      /\ exists (i : batch) (rest : list batch),
           create_dataloader idle_collaborators "train.h5ad" 4 1 = i :: rest
           /\ (5 <= torch.shape1 i)%nat).
Proof.
  assert (H1 : py.sys_stdout (py.fresh counting_generator) = py.TextIO py.fd_stdout)
    by reflexivity.
  assert (H2 : fst (run_VAE_training idle_collaborators "train.h5ad" "test.h5ad" 1 1
                      5 8 2 4 1 "vae" (py.fresh counting_generator))
               = py.Ok (idle_history, [])) by reflexivity.
  split; [exact H1 | split; [exact H2 |]].
  exact (run_returns_one_entry_per_epoch idle_collaborators "train.h5ad" "test.h5ad"
           1 1 5 8 2 4 1 "vae" (py.fresh counting_generator) idle_history []
           H1 H2).
Defined.

(** X21.  With [epochs = 0], [run_VAE_training] never returns: whatever
    the loaders yield, whatever the dimensions and wherever standard
    output points, the call ends in an exception.  Past the check no
    epoch binds [z], and the [return] statement reads it. *)
Theorem run_zero_epochs_never_returns (C : collaborators)
  (train_data test_data : string) (beta learning_rate : R)
  (ldim hdim batch_size : nat) (sample : R) (output : string)
  (w : py.world) :
  exists e : py.exn,
    fst (run_VAE_training C train_data test_data beta learning_rate
           ldim hdim 0 batch_size sample output w)
    = py.Raise e.
Proof.
  unfold run_VAE_training, py.bind, py.log_call, py.print, first_n_cols, py.lift.
  cbn [py.sys_stdout py.sys_stderr py.out py.err py.calls py.rng].
  destruct (create_dataloader C train_data batch_size sample) as [| i rest];
    destruct (py.sys_stdout w) as [| [|]];
    cbn [py.ret py.read_local py.raise py.write fst
         py.sys_stdout py.sys_stderr py.out py.err py.calls py.rng];
    try (eexists; reflexivity);
    destruct (Nat.ltb (torch.shape1 i) ldim);
    cbn [py.ret py.read_local py.raise py.write py.set_sys_stderr py.sys_exit fst
         py.sys_stdout py.sys_stderr py.out py.err py.calls py.rng];
    try (eexists; reflexivity);
    destruct (new_EncoderNN C (torch.shape1 i) ldim hdim (py.rng w)) as [enc g1];
    cbn [py.sys_stdout py.sys_stderr py.out py.err py.calls py.rng];
    destruct (new_DecoderNN C (torch.shape1 i) ldim hdim g1) as [dec g2];
    cbn [seq epoch_loop py.ret py.read_local py.raise py.write fst
         py.sys_stdout py.sys_stderr py.out py.err py.calls py.rng];
    eexists; reflexivity.
Qed.

(** X23.  Whenever the main module ends without an exception, it has
    trained for at least one epoch, and its last two calls saved the
    model and drew the plots under the same name: the output argument
    followed by the hyperparameters, with [.pt] added for the model. *)
Theorem main_ends_after_save_and_plot (C : collaborators) (w : py.world) :
  let a := parse_model_arguments C in
  py.sys_stdout w = py.TextIO py.fd_stdout ->
  fst (main C w) = py.Ok tt ->
  (1 <= arg_epochs a)%nat
  /\ exists i : batch,
       py.calls (snd (main C w))
       = py.calls w
         ++ [py.create_dataloader_call (arg_train_data a) (arg_batch_size a)
               (arg_sample a);
             py.create_dataloader_call (arg_test_data a) (arg_batch_size a)
               (arg_sample a);
             py.construct_model (torch.shape1 i) (arg_latent_dim a)
               (arg_hidden_dim a)]
         ++ flat_map
              (fun t => [py.train_call t;
                         py.test_call t (Nat.eqb t (arg_epochs a - 1))])
              (seq 0 (arg_epochs a))
         ++ [py.save_call (output_stem C ++ ".pt")%string;
             py.plot_losses_call (arg_epochs a) (output_stem C)].
Proof.
  cbv zeta. intros Hout Hok.
  unfold main, py.bind in *. fold (output_stem C) in *.
  destruct (run_VAE_training C
              (arg_train_data (parse_model_arguments C))
              (arg_test_data (parse_model_arguments C))
              (arg_beta (parse_model_arguments C))
              (arg_learning_rate (parse_model_arguments C))
              (arg_latent_dim (parse_model_arguments C))
              (arg_hidden_dim (parse_model_arguments C))
              (arg_epochs (parse_model_arguments C))
              (arg_batch_size (parse_model_arguments C))
              (arg_sample (parse_model_arguments C))
              (output_stem C) w) as [[[h z] | e] w'] eqn:Hrun;
    [| discriminate].
  destruct (run_returned C _ _ _ _ _ _ _ _ _ _ w h z Hout
              (f_equal fst Hrun))
    as (i & rest & _ & _ & He & _ & Hcalls).
  rewrite Hrun in Hcalls. cbn [snd] in Hcalls.
  split; [exact He |]. exists i.
  unfold py.log_call. cbn [snd py.calls].
  rewrite Hcalls, <- !app_assoc. reflexivity.
Qed.

Lemma main_ends_after_save_and_plot_witness :
  let a := parse_model_arguments small_collaborators in
  py.sys_stdout (py.fresh counting_generator) = py.TextIO py.fd_stdout
  /\ fst (main small_collaborators (py.fresh counting_generator)) = py.Ok tt
  /\ ((1 <= arg_epochs a)%nat
      /\ exists i : batch,
           py.calls (snd (main small_collaborators (py.fresh counting_generator)))
           = py.calls (py.fresh counting_generator)
             ++ [py.create_dataloader_call (arg_train_data a) (arg_batch_size a)
                   (arg_sample a);
                 py.create_dataloader_call (arg_test_data a) (arg_batch_size a)
                   (arg_sample a);
                 py.construct_model (torch.shape1 i) (arg_latent_dim a)
                   (arg_hidden_dim a)]
             ++ flat_map
                  (fun t => [py.train_call t;
                             py.test_call t (Nat.eqb t (arg_epochs a - 1))])
                  (seq 0 (arg_epochs a))
             ++ [py.save_call (output_stem small_collaborators ++ ".pt")%string;
                 py.plot_losses_call (arg_epochs a)
                   (output_stem small_collaborators)]).
Proof.
  cbv zeta.
  assert (H1 : py.sys_stdout (py.fresh counting_generator) = py.TextIO py.fd_stdout)
    by reflexivity.
  assert (H2 : fst (main small_collaborators (py.fresh counting_generator))
               = py.Ok tt) by reflexivity.
  split; [exact H1 | split; [exact H2 |]].
  exact (main_ends_after_save_and_plot small_collaborators
           (py.fresh counting_generator) H1 H2).
Defined.

(** ** The standard deviation on float32 tensors *)

Section Float32.

Import float32.

Lemma pow2_pos e : 0 < pow2 e.
Proof. apply powerRZ_lt. lra. Qed.

Lemma pow2_add a b : pow2 (a + b) = pow2 a * pow2 b.
Proof. apply powerRZ_add. lra. Qed.

Lemma pow2_opp a : pow2 (- a) = / pow2 a.
Proof. apply powerRZ_neg'. Qed.

Lemma pow2_0 : pow2 0 = 1.
Proof. reflexivity. Qed.

Lemma ln2_pos : 0 < ln 2.
Proof. rewrite <- ln_1. apply ln_increasing; lra. Qed.

Lemma pow2_exp e : pow2 e = Rtrigo_def.exp (IZR e * ln 2).
Proof. unfold pow2. rewrite powerRZ_Rpower by lra. reflexivity. Qed.

Lemma pow2_le a b : (a <= b)%Z -> pow2 a <= pow2 b.
Proof.
  intros H. rewrite !pow2_exp.
  destruct (Z.eq_dec a b) as [-> | Hn]; [lra |].
  left. apply exp_increasing.
  apply Rmult_lt_compat_r; [apply ln2_pos | apply IZR_lt; lia].
Qed.

Lemma pow2_lt a b : (a < b)%Z -> pow2 a < pow2 b.
Proof.
  intros H. rewrite !pow2_exp. apply exp_increasing.
  apply Rmult_lt_compat_r; [apply ln2_pos | now apply IZR_lt].
Qed.

Lemma pow2_lt_inv a b : pow2 a < pow2 b -> (a < b)%Z.
Proof.
  intros H. destruct (Z_lt_le_dec a b) as [Hlt | Hle]; [exact Hlt |].
  pose proof (pow2_le b a Hle). lra.
Qed.

Lemma pow2_IZR (e : Z) : (0 <= e)%Z -> pow2 e = IZR (2 ^ e).
Proof.
  intros He. unfold pow2.
  destruct e as [| p | p]; [reflexivity | | lia].
  rewrite <- Zpower_pos_powerRZ. reflexivity.
Qed.

Lemma mag_spec x : x <> 0 -> pow2 (mag x - 1) <= Rabs x < pow2 (mag x).
Proof.
  intros Hx. pose proof (Rabs_pos_lt x Hx) as Ha.
  unfold mag. rewrite !pow2_exp.
  pose proof (Zfloor_bound (ln (Rabs x) / ln 2)) as [Hlo Hhi].
  set (n := Zfloor (ln (Rabs x) / ln 2)) in *.
  replace (n + 1 - 1)%Z with n by lia.
  pose proof ln2_pos as H2.
  assert (E : Rabs x = Rtrigo_def.exp (ln (Rabs x) / ln 2 * ln 2)).
  { unfold Rdiv. rewrite Rmult_assoc, Rinv_l by lra.
    rewrite Rmult_1_r, exp_ln; [reflexivity | exact Ha]. }
  rewrite plus_IZR. split.
  - rewrite E.
    destruct Hlo as [Hlo | Hlo].
    + left. apply exp_increasing. now apply Rmult_lt_compat_r.
    + rewrite Hlo. lra.
  - rewrite E. apply exp_increasing. now apply Rmult_lt_compat_r.
Qed.

Lemma mag_unique x e : pow2 (e - 1) <= Rabs x < pow2 e -> mag x = e.
Proof.
  intros [Hlo Hhi].
  assert (Hx : x <> 0).
  { intros ->. rewrite Rabs_R0 in Hlo. pose proof (pow2_pos (e - 1)). lra. }
  destruct (mag_spec x Hx) as [Mlo Mhi].
  assert (H1 : (mag x - 1 < e)%Z) by (apply pow2_lt_inv; lra).
  assert (H2 : (e - 1 < mag x)%Z) by (apply pow2_lt_inv; lra).
  lia.
Qed.

Lemma pow2_le_inv a b : pow2 a <= pow2 b -> (a <= b)%Z.
Proof.
  intros H. destruct (Z_lt_le_dec b a) as [Hlt | Hle]; [| exact Hle].
  pose proof (pow2_lt b a Hlt). lra.
Qed.

Lemma nearest_even_floor (y : R) (n : Z) :
  IZR n <= y < IZR n + 1 / 2 -> nearest_even y = n.
Proof.
  intros [Hlo Hhi]. unfold nearest_even.
  rewrite (Zfloor_eq n y) by lra.
  destruct (Rlt_dec (y - IZR n) (1 / 2)) as [_ | Hn]; [reflexivity | lra].
Qed.

Lemma nearest_even_IZR (n : Z) : nearest_even (IZR n) = n.
Proof. apply nearest_even_floor. lra. Qed.

Lemma nearest_even_ge_floor (y : R) : (Zfloor y <= nearest_even y)%Z.
Proof.
  unfold nearest_even.
  destruct (Rlt_dec _ _); [lia |].
  destruct (Rlt_dec _ _); [lia |].
  destruct (Z.even _); lia.
Qed.

Lemma nearest_even_le_ceil (y : R) : (nearest_even y <= Zfloor y + 1)%Z.
Proof.
  unfold nearest_even.
  destruct (Rlt_dec _ _); [lia |].
  destruct (Rlt_dec _ _); [lia |].
  destruct (Z.even _); lia.
Qed.

Lemma nearest_even_ge (y : R) (n : Z) : IZR n <= y -> (n <= nearest_even y)%Z.
Proof.
  intros H. pose proof (Zfloor_lub n y H). pose proof (nearest_even_ge_floor y). lia.
Qed.

Lemma nearest_even_le (y : R) (n : Z) : y <= IZR n -> (nearest_even y <= n)%Z.
Proof.
  intros H. pose proof (Zfloor_bound y) as [Hlo Hhi].
  assert (Hf : (Zfloor y <= n)%Z) by (apply le_IZR; lra).
  destruct (Z.eq_dec (Zfloor y) n) as [E | Hn].
  - subst n. rewrite (nearest_even_floor y (Zfloor y)); [lia | lra].
  - pose proof (nearest_even_le_ceil y). lia.
Qed.

Lemma round_0 : round 0 = 0.
Proof.
  unfold round. rewrite Rmult_0_l.
  change 0 with (IZR 0) at 1. rewrite nearest_even_IZR. lra.
Qed.

Lemma round_nonneg (x : R) : 0 <= x -> 0 <= round x.
Proof.
  intros Hx. unfold round.
  apply Rmult_le_pos; [| left; apply pow2_pos].
  apply IZR_le, nearest_even_ge.
  apply Rmult_le_pos; [exact Hx | left; apply pow2_pos].
Qed.

Lemma cexp_normal (x : R) : (-125 <= mag x)%Z -> cexp x = (mag x - 24)%Z.
Proof. unfold cexp. lia. Qed.

Lemma round_ge_one (x : R) : 1 <= x -> 1 <= round x.
Proof.
  intros Hx.
  assert (Hx0 : x <> 0) by lra.
  destruct (mag_spec x Hx0) as [Mlo Mhi].
  rewrite Rabs_pos_eq in Mlo, Mhi by lra.
  assert (Hm : (0 < mag x)%Z).
  { apply pow2_lt_inv. rewrite pow2_0. lra. }
  unfold round. rewrite cexp_normal by lia.
  set (m := mag x) in *.
  assert (Hk : (2 ^ 23 <= nearest_even (x * pow2 (- (m - 24))))%Z).
  { apply nearest_even_ge. rewrite <- pow2_IZR by lia.
    replace 23%Z with ((m - 1) + - (m - 24))%Z by lia.
    rewrite pow2_add.
    apply Rmult_le_compat_r; [left; apply pow2_pos | exact Mlo]. }
  apply IZR_le in Hk. rewrite <- pow2_IZR in Hk by lia.
  apply Rle_trans with (pow2 23 * pow2 (m - 24)).
  - rewrite <- pow2_add, <- pow2_0. apply pow2_le. lia.
  - apply Rmult_le_compat_r; [left; apply pow2_pos | exact Hk].
Qed.

Lemma round_le_pow2 (x : R) (k : Z) :
  (-149 <= k)%Z -> 0 <= x <= pow2 k -> round x <= pow2 k.
Proof.
  intros Hk [Hx0 Hxk].
  destruct (Req_dec x 0) as [-> | Hn].
  - rewrite round_0. left. apply pow2_pos.
  - destruct (mag_spec x Hn) as [Mlo _].
    rewrite Rabs_pos_eq in Mlo by lra.
    assert (Hm : (mag x - 1 <= k)%Z) by (apply pow2_le_inv; lra).
    assert (He : (cexp x <= k)%Z) by (unfold cexp; lia).
    unfold round. set (e := cexp x) in *.
    assert (Hn' : (nearest_even (x * pow2 (- e)) <= 2 ^ (k - e))%Z).
    { apply nearest_even_le. rewrite <- pow2_IZR by lia.
      replace (k - e)%Z with (k + - e)%Z by lia. rewrite pow2_add.
      apply Rmult_le_compat_r; [left; apply pow2_pos | exact Hxk]. }
    apply IZR_le in Hn'. rewrite <- pow2_IZR in Hn' by lia.
    replace (pow2 k) with (pow2 (k - e) * pow2 e)
      by (rewrite <- pow2_add; f_equal; lia).
    apply Rmult_le_compat_r; [left; apply pow2_pos | exact Hn'].
Qed.

Lemma round_near_one (x : R) : 1 <= x < 1 + pow2 (-24) -> round x = 1.
Proof.
  intros [Hlo Hhi].
  assert (H24 : pow2 (-24) < 1).
  { rewrite <- pow2_0. apply pow2_lt. lia. }
  assert (Hm : mag x = 1%Z).
  { apply mag_unique. rewrite Rabs_pos_eq by lra.
    change (1 - 1)%Z with 0%Z. rewrite pow2_0.
    replace (pow2 1) with 2 by (unfold pow2; simpl; lra). lra. }
  unfold round, cexp. rewrite Hm. change (Z.max (1 - 24) (-149)) with (-23)%Z.
  change (- -23)%Z with 23%Z.
  rewrite (nearest_even_floor _ (2 ^ 23)).
  - rewrite <- pow2_IZR by lia. rewrite <- pow2_add. reflexivity.
  - rewrite <- pow2_IZR by lia. split.
    + rewrite <- (Rmult_1_l (pow2 23)) at 1.
      apply Rmult_le_compat_r; [left; apply pow2_pos | exact Hlo].
    + replace (1 / 2) with (pow2 (-24) * pow2 23).
      * rewrite <- (Rmult_1_l (pow2 23)) at 2. rewrite <- Rmult_plus_distr_r.
        apply Rmult_lt_compat_r; [apply pow2_pos | exact Hhi].
      * rewrite <- pow2_add. unfold pow2; simpl; lra.
Qed.

Lemma max_finite_ge (c : R) : c <= 16777215 -> c <= max_finite.
Proof.
  intros Hc. unfold max_finite.
  assert (H : 1 <= pow2 104) by (rewrite <- pow2_0; apply pow2_le; lia).
  change (IZR (2 ^ 24 - 1)) with 16777215. nra.
Qed.

Lemma of_real_finite (x : R) :
  Rabs (round x) <= max_finite -> of_real x = Finite (round x).
Proof.
  intros H. unfold of_real. now destruct (Rle_dec _ _).
Qed.

Lemma of_real_0 : of_real 0 = Finite 0.
Proof.
  rewrite of_real_finite; rewrite round_0; [reflexivity |].
  rewrite Rabs_R0. apply max_finite_ge. lra.
Qed.

(** A non-negative exact result gives a non-negative number or
    overflows upwards. *)
Lemma of_real_nonneg (x : R) :
  0 <= x -> of_real x = PosInf \/ (of_real x = Finite (round x) /\ 0 <= round x).
Proof.
  intros Hx. unfold of_real.
  destruct (Rle_dec _ _) as [_ | Hover].
  - right. split; [reflexivity | now apply round_nonneg].
  - destruct (Rlt_dec 0 x) as [_ | Hn]; [now left |].
    exfalso. apply Hover.
    replace x with 0 by lra. rewrite round_0, Rabs_R0.
    apply max_finite_ge. lra.
Qed.

Lemma of_real_small (x : R) (k : Z) :
  (-149 <= k <= 0)%Z -> 0 <= x <= pow2 k ->
  of_real x = Finite (round x) /\ 0 <= round x <= pow2 k.
Proof.
  intros Hk Hx.
  pose proof (round_nonneg x (proj1 Hx)) as H0.
  pose proof (round_le_pow2 x k (proj1 Hk) Hx) as H1.
  assert (Hk1 : pow2 k <= 1) by (rewrite <- pow2_0; apply pow2_le; lia).
  split; [| lra].
  apply of_real_finite. rewrite Rabs_pos_eq by exact H0.
  apply max_finite_ge. lra.
Qed.

Lemma exp_INR (n : nat) (x : R) : Rtrigo_def.exp (INR n * x) = Rtrigo_def.exp x ^ n.
Proof.
  induction n as [| n IH].
  - simpl. rewrite Rmult_0_l. apply exp_0.
  - rewrite S_INR, Rmult_plus_distr_r, Rmult_1_l, exp_plus, IH. simpl. ring.
Qed.

Lemma exp_1_ge_2 : 2 <= Rtrigo_def.exp 1.
Proof. pose proof (exp_ineq1_le 1). lra. Qed.

Lemma exp_neg_le_pow2 (v : R) (n : nat) :
  v <= - INR n -> Rtrigo_def.exp v <= pow2 (- Z.of_nat n).
Proof.
  intros Hv.
  apply Rle_trans with (Rtrigo_def.exp (- INR n)).
  - destruct Hv as [Hv | ->]; [left; now apply exp_increasing | lra].
  - rewrite exp_Ropp, pow2_opp.
    apply Rinv_le_contravar; [apply pow2_pos |].
    unfold pow2. rewrite <- pow_powerRZ.
    replace (INR n) with (INR n * 1) by lra. rewrite exp_INR.
    apply pow_incr. pose proof exp_1_ge_2. lra.
Qed.

Lemma exp_small_below (y : R) :
  0 <= y <= pow2 (-33) -> 1 <= Rtrigo_def.exp y < 1 + pow2 (-24).
Proof.
  intros [H0 H1].
  assert (E33 : pow2 (-33) = / 8589934592) by (unfold pow2; simpl; lra).
  assert (E24 : pow2 (-24) = / 16777216) by (unfold pow2; simpl; lra).
  rewrite E33 in H1. rewrite E24.
  split.
  - pose proof (exp_ineq1_le y). lra.
  - pose proof (exp_ineq1_le (- y)) as Hn.
    pose proof (exp_pos y) as Hp.
    assert (Hprod : Rtrigo_def.exp y * Rtrigo_def.exp (- y) = 1).
    { rewrite <- exp_plus. replace (y + - y) with 0 by lra. apply exp_0. }
    assert (Hy : y <= / 8589934592) by exact H1.
    assert (Hb : / 8589934592 = 1 / 8589934592) by lra.
    assert (Hc : / 16777216 = 1 / 16777216) by lra.
    nra.
Qed.

Lemma round_m32 : round (-32) = -32.
Proof.
  assert (Hm : mag (-32) = 6%Z).
  { apply mag_unique. rewrite Rabs_left by lra.
    unfold pow2; simpl; lra. }
  unfold round, cexp. rewrite Hm.
  change (Z.max (6 - 24) (-149)) with (-18)%Z. change (- -18)%Z with 18%Z.
  replace (-32 * pow2 18) with (IZR (-8388608)) by (unfold pow2; simpl; lra).
  rewrite nearest_even_IZR. unfold pow2; simpl; lra.
Qed.

Lemma of_real_m32 : of_real (-32) = Finite (-32).
Proof.
  rewrite of_real_finite; rewrite round_m32; [reflexivity |].
  rewrite Rabs_left by lra. apply max_finite_ge. lra.
Qed.

Lemma mul_0_0 : mul (Finite 0) (Finite 0) = Finite 0.
Proof. unfold mul. rewrite Rmult_0_l. apply of_real_0. Qed.

Lemma add_0_0 : add (Finite 0) (Finite 0) = Finite 0.
Proof. unfold add. rewrite Rplus_0_l. apply of_real_0. Qed.

Lemma add_0_m32 : add (Finite 0) (Finite (-32)) = Finite (-32).
Proof. unfold add. rewrite Rplus_0_l. apply of_real_m32. Qed.

Lemma relu_0 : relu (Finite 0) = Finite 0.
Proof. unfold relu. now rewrite Rmax_left by lra. Qed.

(** A second head that returns -32 or less gives a standard deviation
    of exactly 1: its exponential is below [2^-32], half of it below
    [2^-33], and the exponential of that rounds to 1. *)
Lemma std_of_cold_head (v : R) :
  v <= -32 -> exp (div_scalar (exp (Finite v)) 2) = Finite 1.
Proof.
  intros Hv.
  assert (Hexp : 0 <= Rtrigo_def.exp v <= pow2 (-32)).
  { split; [left; apply exp_pos |].
    apply (exp_neg_le_pow2 v 32). simpl. lra. }
  destruct (of_real_small _ (-32) ltac:(lia) Hexp) as [E1 [H0 H1]].
  cbn [exp]. rewrite E1. cbn [div_scalar].
  assert (Hhalf : 0 <= round (Rtrigo_def.exp v) / 2 <= pow2 (-33)).
  { replace (pow2 (-33)) with (pow2 (-32) / 2) by (unfold pow2; simpl; lra). lra. }
  destruct (of_real_small _ (-33) ltac:(lia) Hhalf) as [E2 H2].
  rewrite E2. cbn [exp].
  pose proof (exp_small_below _ H2) as H3.
  rewrite of_real_finite; rewrite (round_near_one _ H3); [reflexivity |].
  rewrite Rabs_pos_eq by lra. apply max_finite_ge. lra.
Qed.

Lemma cold_encoder_forward :
  EncoderGaussian.forward cold_encoder [[Finite 0]]
  = Some ([[Finite 0]], [[Finite 1]]).
Proof.
  unfold EncoderGaussian.forward, EncoderNN.forward, cold_encoder.
  cbn [EncoderGaussian.encoder EncoderNN.linear1 EncoderNN.linear2 EncoderNN.linear3
       linear outputs dot weight bias].
  rewrite mul_0_0, !add_0_0.
  cbn [map]. rewrite relu_0.
  cbn [linear outputs dot weight bias].
  rewrite mul_0_0, !add_0_0, add_0_m32.
  cbn [map]. rewrite (std_of_cold_head (-32)) by lra.
  reflexivity.
Qed.

(** Whatever the second head returns, NaN apart, the standard deviation
    is at least 1, or the infinity of an overflow. *)
Lemma std_of_head (v : t) :
  v <> NaN -> at_least_one (exp (div_scalar (exp v) 2)).
Proof.
  intros Hv.
  assert (Hlast : forall y, 0 <= y -> at_least_one (exp (Finite y))).
  { intros y Hy. cbn [exp].
    assert (H1 : 1 <= Rtrigo_def.exp y) by (pose proof (exp_ineq1_le y); lra).
    destruct (of_real_nonneg (Rtrigo_def.exp y)) as [-> | [-> _]];
      [lra | exact I |].
    cbn [at_least_one]. now apply round_ge_one. }
  assert (Hhalf : forall y, 0 <= y -> at_least_one (exp (div_scalar (Finite y) 2))).
  { intros y Hy. cbn [div_scalar].
    destruct (of_real_nonneg (y / 2)) as [-> | [-> H0]]; [lra | exact I |].
    now apply Hlast. }
  destruct v as [r | | |].
  - cbn [exp].
    destruct (of_real_nonneg (Rtrigo_def.exp r)) as [-> | [-> H0]].
    + left. apply exp_pos.
    + cbn [div_scalar]. destruct (Rlt_dec 0 2) as [_ | Hn]; [exact I | lra].
    + now apply Hhalf.
  - cbn [exp div_scalar]. destruct (Rlt_dec 0 2) as [_ | Hn]; [exact I | lra].
  - cbn [exp]. now apply Hhalf.
  - congruence.
Qed.

End Float32.

(** C8.  On float32 tensors, for every input and all parameter values
    on which the encoder runs, every component of the [std] it returns
    that is not NaN is at least 1, the infinity of an overflow included:
    the network exponentiates its second head, and the wrapper
    exponentiates half of that non-negative number again. *)
Theorem float32_encoder_std_at_least_one (self : float32.EncoderGaussian.t)
  (x mu std : float32.tensor) :
  float32.EncoderGaussian.forward self x = Some (mu, std) ->
  Forall (Forall (fun s => s = float32.NaN \/ float32.at_least_one s)) std.
Proof.
  unfold float32.EncoderGaussian.forward, float32.EncoderNN.forward.
  set (enc := float32.EncoderGaussian.encoder self).
  destruct (float32.linear (float32.EncoderNN.linear1 enc) x) as [h |];
    [| discriminate].
  destruct (float32.linear (float32.EncoderNN.linear2 enc) _) as [mu' |];
    [| discriminate].
  destruct (float32.linear (float32.EncoderNN.linear3 enc) _) as [pre |];
    [| discriminate].
  cbv zeta. intros E. injection E as _ <-.
  rewrite !map_map.
  apply Forall_map, Forall_forall. intros row _.
  rewrite !map_map.
  apply Forall_map, Forall_forall. intros v _.
  destruct v as [r | | |];
    try (right; apply std_of_head; discriminate).
  left. reflexivity.
Qed.

Lemma float32_encoder_std_at_least_one_witness :
  float32.EncoderGaussian.forward float32.cold_encoder [[float32.Finite 0]]
  = Some ([[float32.Finite 0]], [[float32.Finite 1]])
  /\ Forall (Forall (fun s => s = float32.NaN \/ float32.at_least_one s))
       [[float32.Finite 1]].
Proof.
  split; [exact cold_encoder_forward |].
  exact (float32_encoder_std_at_least_one float32.cold_encoder
           [[float32.Finite 0]] [[float32.Finite 0]] [[float32.Finite 1]]
           cold_encoder_forward).
Defined.

(** With every weight zero and the bias of the second head at -32, the
    standard deviation returned for the input 0 is exactly 1, not above
    it. *)
Lemma float32_encoder_std_exactly_one :
  float32.EncoderGaussian.forward float32.cold_encoder [[float32.Finite 0]]
  = Some ([[float32.Finite 0]], [[float32.Finite 1]])
  /\ ~ Forall (Forall float32.above_one) [[float32.Finite 1]].
Proof.
  split; [exact cold_encoder_forward |].
  intros H. inversion H as [| ? ? Hrow _]; subst.
  inversion Hrow as [| ? ? H1 _]; subst.
  cbn in H1. lra.
Qed.
